(** * Role-aware financial assistant: retrieval, guardrails, evaluator, workflow

    A shallow embedding of the Python sources [src/retriever.py],
    [src/guardrails.py], [src/data.py] and [src/agent.py], followed by the
    properties of the specification that can be settled on it.

    Conventions of the embedding.
    - A Python [str] is a [string]: one [ascii] per character, so the model
      covers the code points 0..255; character classes ([str.strip],
      [str.lower], the regular-expression classes) follow CPython on that
      range.
    - A Python [int] is a [Z]; a [float] is a binary64 [PrimFloat.float].
    - A [dict] read by key is a [gmap]; a [dict] whose iteration order matters
      (the PII registry, a JSON object) is an association list; a [set] is a
      [gset].
    - The collaborators outside the repository (the FAISS index, the chat
      model, Python's [exec], the clock) are variables of the sections that
      use them. *)

From Stdlib Require Import ZArith Ascii String List Bool Lia.
From Stdlib Require Import Floats.PrimFloat.
From Stdlib Require DecimalString Uint63.
From stdpp Require Import base option list gmap strings.

Import ListNotations.
Set Warnings "-inexact-float".
Local Open Scope string_scope.
Local Open Scope list_scope.
Local Open Scope Z_scope.

(** ** Python values shared by the modules *)

(** A metadata value of a document: the corpus stores strings and years. *)
Inductive metaval :=
| MStr (s : string)
| MInt (n : Z).

#[global] Instance metaval_eq_dec : EqDecision metaval.
Proof. solve_decision. Defined.

(** [langchain_core.documents.Document]. *)
Record Document := mkDocument {
  page_content : string;
  metadata : gmap string metaval
}.

(** [l[:k]] for a Python list: a negative bound counts from the end. *)
Definition py_slice_to {A} (l : list A) (k : Z) : list A :=
  if k <? 0 then take (length l - Z.to_nat (- k))%nat l
  else take (Z.to_nat k) l.

(** [d.get(key, default)]. *)
Definition dict_get (d : gmap string metaval) (key : string) (default : metaval) : metaval :=
  match d !! key with
  | Some v => v
  | None => default
  end.

(** [v in s] for a set of strings: a non-string value is never a member. *)
Definition in_str_set (v : metaval) (s : gset string) : Prop :=
  match v with
  | MStr x => x ∈ s
  | MInt _ => False
  end.

#[global] Instance in_str_set_dec v s : Decision (in_str_set v s).
Proof. destruct v; simpl; apply _. Defined.

(** ** Python's [str] methods used by the sources *)

Module PyStr.

Definition code (c : ascii) : N := N_of_ascii c.

Definition between (lo hi : N) (c : ascii) : bool :=
  ((lo <=? code c) && (code c <=? hi))%N.

(** [str.isspace] on one character (CPython's [Py_UNICODE_ISSPACE]):
    TAB..CR, FS..US, SPACE, NEL and NBSP are the ones below 256. *)
Definition isspace (c : ascii) : bool :=
  between 9 13 c || between 28 32 c || (code c =? 133)%N || (code c =? 160)%N.

(** [Py_UNICODE_ISDECIMAL]: below 256 only the ASCII digits. *)
Definition isdecimal (c : ascii) : bool := between 48 57 c.

(** [str.isalnum] on one character, below 256: ASCII letters and digits,
    the Latin-1 letters, and the superscripts and fractions that are
    numeric. *)
Definition isalnum (c : ascii) : bool :=
  between 48 57 c || between 65 90 c || between 97 122 c
  || (code c =? 170)%N || between 178 179 c || (code c =? 181)%N
  || between 185 186 c || between 188 190 c
  || between 192 214 c || between 216 246 c || between 248 255 c.

(** [str.lower] on one character, below 256: [A-Z] and the Latin-1 capitals
    (U+00C0..U+00DE without the multiplication sign) move up by 32. *)
Definition lower_char (c : ascii) : ascii :=
  if between 65 90 c || (between 192 222 c && negb (code c =? 215)%N)
  then ascii_of_N (code c + 32)
  else c.

(** [s.lower()]. *)
Fixpoint lower (s : string) : string :=
  match s with
  | EmptyString => EmptyString
  | String c s' => String (lower_char c) (lower s')
  end.

(** [len(s)]. *)
Definition len (s : string) : Z := Z.of_nat (String.length s).

(** [s.lstrip()]. *)
Fixpoint lstrip (s : string) : string :=
  match s with
  | EmptyString => EmptyString
  | String c s' => if isspace c then lstrip s' else s
  end.

(** [s.rstrip()]. *)
Fixpoint rstrip (s : string) : string :=
  match s with
  | EmptyString => EmptyString
  | String c s' =>
      match rstrip s' with
      | EmptyString => if isspace c then EmptyString else String c EmptyString
      | r => String c r
      end
  end.

(** [s.strip()]. *)
Definition strip (s : string) : string := rstrip (lstrip s).

(** Truth value of a string: [not s] holds for the empty string only. *)
Definition truthy (s : string) : bool :=
  match s with
  | EmptyString => false
  | String _ _ => true
  end.

(** [s.startswith(p)]. *)
Fixpoint startswith (p s : string) : bool :=
  match p, s with
  | EmptyString, _ => true
  | String a p', String b s' => if ascii_dec a b then startswith p' s' else false
  | String _ _, EmptyString => false
  end.

(** [sub in s]. *)
Fixpoint contains (sub s : string) : bool :=
  startswith sub s
  || match s with
     | EmptyString => false
     | String _ s' => contains sub s'
     end.

(** [s.replace(old, new)] for a non-empty [old]: occurrences are replaced
    from the left and do not overlap. [skip] counts the characters of the
    occurrence just replaced that are still to be passed over. *)
Fixpoint replace_from (old new : string) (skip : nat) (s : string) : string :=
  match s with
  | EmptyString => EmptyString
  | String c s' =>
      match skip with
      | S k => replace_from old new k s'
      | O =>
          if startswith old s
          then new +:+ replace_from old new (String.length old - 1) s'
          else String c (replace_from old new O s')
      end
  end.

Definition replace (old new s : string) : string := replace_from old new O s.

(** [s.split(sep)] for a non-empty [sep]: [cur] is the piece being read, in
    reverse. *)
Fixpoint split_from (sep : string) (skip : nat) (cur : string) (s : string) : list string :=
  match s with
  | EmptyString => [cur]
  | String c s' =>
      match skip with
      | S k => split_from sep k cur s'
      | O =>
          if startswith sep s
          then cur :: split_from sep (String.length sep - 1) EmptyString s'
          else split_from sep O (cur +:+ String c EmptyString) s'
      end
  end.

Definition split (sep s : string) : list string := split_from sep O EmptyString s.

(** [sep.join(parts)]. *)
Fixpoint join (sep : string) (parts : list string) : string :=
  match parts with
  | [] => EmptyString
  | [p] => p
  | p :: rest => p +:+ sep +:+ join sep rest
  end.

(** [s[:n]] for [n >= 0]. *)
Fixpoint take_chars (n : nat) (s : string) : string :=
  match n, s with
  | O, _ => EmptyString
  | S _, EmptyString => EmptyString
  | S n', String c s' => String c (take_chars n' s')
  end.

(** The double quote, character 34. *)
Definition dquote : string := String "034"%char EmptyString.

(** The line feed, character 10. *)
Definition newline : string := String "010"%char EmptyString.

(** [str(n)] for an [int]. *)
Definition str_of_int (n : Z) : string :=
  DecimalString.NilZero.string_of_int (Z.to_int n).

End PyStr.

(** ** The part of Python's [re] that the PII registry uses

    Patterns are sequences of word boundaries and of quantified
    single-character atoms (a literal, an escape, a bracket class); this
    covers the four patterns of [PII_PATTERNS]. [re.search] only reports
    whether some match exists, so the order in which the backtracking
    engine tries alternatives does not matter. *)

Module Re.

Inductive cset_item :=
| CsChar (c : ascii)
| CsRange (lo hi : ascii)
| CsDigit
| CsSpace.

Inductive item :=
| Boundary
| Repeat (cs : list cset_item) (lo : nat) (hi : option nat).

Definition cset_item_mem (c : ascii) (i : cset_item) : bool :=
  match i with
  | CsChar a => if ascii_dec a c then true else false
  | CsRange lo hi => PyStr.between (PyStr.code lo) (PyStr.code hi) c
  | CsDigit => PyStr.isdecimal c
  | CsSpace => PyStr.isspace c
  end.

Definition cset_mem (cs : list cset_item) (c : ascii) : bool :=
  existsb (cset_item_mem c) cs.

(** [\w] for a [str] pattern: alphanumeric or underscore. *)
Definition is_word (c : ascii) : bool :=
  PyStr.isalnum c || (PyStr.code c =? 95)%N.

(** [\b]: exactly one of the characters around the position is a word
    character. *)
Definition at_boundary (prev : option ascii) (s : string) : bool :=
  xorb (match prev with Some c => is_word c | None => false end)
       (match s with String c _ => is_word c | EmptyString => false end).

Definition below (hi : option nat) (n : nat) : bool :=
  match hi with
  | Some h => (n <? h)%nat
  | None => true
  end.

(** Does the pattern match at the current position? [prev] is the character
    before the position, [s] the text from the position on. *)
Fixpoint match_here (p : list item) (prev : option ascii) (s : string) {struct p} : bool :=
  match p with
  | [] => true
  | Boundary :: p' => if at_boundary prev s then match_here p' prev s else false
  | Repeat cs lo hi :: p' =>
      (fix rep (n : nat) (prev : option ascii) (s : string) {struct s} : bool :=
         if (if (lo <=? n)%nat then match_here p' prev s else false) then true
         else
           match s with
           | EmptyString => false
           | String c s' =>
               if below hi n && cset_mem cs c then rep (S n) (Some c) s' else false
           end) O prev s
  end.

(** The scan of [re.search] over the start positions. *)
Fixpoint search_from (p : list item) (prev : option ascii) (s : string) : bool :=
  if match_here p prev s then true
  else
    match s with
    | EmptyString => false
    | String c s' => search_from p (Some c) s'
    end.

(** *** Reading a pattern *)

Definition is_special (c : ascii) : bool :=
  existsb (fun a => if ascii_dec a c then true else false)
    (list_ascii_of_string ".^$*+?{}[]\|()").

Definition escape_class (c : ascii) : option cset_item :=
  if ascii_dec c "d" then Some CsDigit
  else if ascii_dec c "s" then Some CsSpace
  else if is_special c || (if ascii_dec c "-" then true else false) then Some (CsChar c)
  else None.

(** The members of a bracket class, after the opening bracket; the result
    carries the text after the closing bracket. *)
Fixpoint parse_class (s : string) (acc : list cset_item) : option (list cset_item * string) :=
  match s with
  | EmptyString => None
  | String c rest =>
      if ascii_dec c "]" then Some (acc, rest)
      else if ascii_dec c "\" then
        match rest with
        | String e rest' =>
            match escape_class e with
            | Some i => parse_class rest' (acc ++ [i])
            | None => None
            end
        | EmptyString => None
        end
      else
        match rest with
        | String "-" (String b rest') =>
            if ascii_dec b "]" then parse_class rest (acc ++ [CsChar c])
            else if ascii_dec b "\" then None
            else parse_class rest' (acc ++ [CsRange c b])
        | _ => parse_class rest (acc ++ [CsChar c])
        end
  end.

Fixpoint parse_nat (s : string) (acc : option nat) : option nat * string :=
  match s with
  | String c rest =>
      if PyStr.between 48 57 c
      then parse_nat rest (Some (10 * default O acc + (N.to_nat (PyStr.code c) - 48))%nat)
      else (acc, s)
  | EmptyString => (acc, s)
  end.

(** A quantifier, if one follows: [?], [+], [*], [{n}], [{n,}], [{n,m}]. *)
Definition parse_quant (s : string) : option (nat * option nat * string) :=
  match s with
  | String "?" rest => Some (O, Some 1%nat, rest)
  | String "+" rest => Some (1%nat, None, rest)
  | String "*" rest => Some (O, None, rest)
  | String "{" rest =>
      match parse_nat rest None with
      | (Some n, String "}" rest') => Some (n, Some n, rest')
      | (Some n, String "," rest') =>
          match parse_nat rest' None with
          | (None, String "}" rest'') => Some (n, None, rest'')
          | (Some m, String "}" rest'') => Some (n, Some m, rest'')
          | _ => None
          end
      | _ => None
      end
  | _ => Some (1%nat, Some 1%nat, s)
  end.

Definition quantified (cs : list cset_item) (s : string) : option (item * string) :=
  match parse_quant s with
  | Some (lo, hi, rest) => Some (Repeat cs lo hi, rest)
  | None => None
  end.

(** One item of the pattern. *)
Definition parse_item (s : string) : option (item * string) :=
  match s with
  | EmptyString => None
  | String "\" (String "b" rest) => Some (Boundary, rest)
  | String "\" (String e rest) =>
      match escape_class e with
      | Some i => quantified [i] rest
      | None => None
      end
  | String "\" EmptyString => None
  | String "[" (String "^" _) => None
  | String "[" rest =>
      match parse_class rest [] with
      | Some (cs, rest') => quantified cs rest'
      | None => None
      end
  | String c rest => if is_special c then None else quantified [CsChar c] rest
  end.

Fixpoint parse_items (fuel : nat) (s : string) : option (list item) :=
  match s with
  | EmptyString => Some []
  | _ =>
      match fuel with
      | O => None
      | S fuel' =>
          match parse_item s with
          | Some (i, rest) =>
              match parse_items fuel' rest with
              | Some p => Some (i :: p)
              | None => None
              end
          | None => None
          end
      end
  end.

(** [re.compile(pattern)], on the supported patterns: every item consumes
    at least one character, so the length of the pattern is fuel enough. *)
Definition compile (pattern : string) : option (list item) :=
  parse_items (String.length pattern) pattern.

(** [re.search(pattern, text)] as a truth value. A pattern outside the
    supported syntax matches nothing here; the registry has none. *)
Definition search (pattern text : string) : bool :=
  match compile pattern with
  | Some p => search_from p None text
  | None => false
  end.

End Re.

(** ** src/data.py *)

Module Data.

Definition meta (source sensitivity category : string) (year : Z) : gmap string metaval :=
  <["source" := MStr source]>
  (<["sensitivity" := MStr sensitivity]>
  (<["category" := MStr category]>
  (<["year" := MInt year]> ∅))).

Definition RAW_FINANCIAL_DATA : list (string * gmap string metaval) :=
  [ ("NVIDIA Q3 Revenue reported at $18.12 Billion, up 206% YoY. Data Center revenue was the primary driver.",
     meta "10-Q" "public" "financials" 2024);
    ("The company announced a stock buyback program of $25 Billion.",
     meta "Press Release" "public" "financials" 2024);
    ("NVIDIA's gaming segment revenue reached $2.86 billion, showing steady consumer demand.",
     meta "10-Q" "public" "financials" 2024);
    ("The company's gross margin improved to 74.0%, up from 70.1% in the previous quarter.",
     meta "10-Q" "public" "financials" 2024);
    ("Product Roadmap: Next-gen Blackwell B200 chip targets Q2 2025 launch. Focus on AI training workloads.",
     meta "Product Planning" "product" "roadmap" 2025);
    ("Feature prioritization for H100 successor includes 2x memory bandwidth and improved power efficiency.",
     meta "Product Planning" "product" "roadmap" 2025);
    ("Customer feedback indicates strong demand for inference-optimized chips in edge computing scenarios.",
     meta "Product Research" "product" "research" 2024);
    ("CONFIDENTIAL: Project 'Blackwell' is facing a 3-month delay due to packaging yield issues at TSMC.",
     meta "Internal Memo" "insider" "operations" 2025);
    ("CONFIDENTIAL: Legal team is preparing for a potential antitrust inquiry regarding the ARM acquisition attempt.",
     meta "Legal Brief" "insider" "legal" 2023);
    ("CONFIDENTIAL: Q4 revenue projection internally revised down by 8% due to supply chain constraints.",
     meta "Internal Forecast" "insider" "financials" 2024);
    ("CONFIDENTIAL: Executive compensation packages under review, potential 15% increase for retention.",
     meta "HR Memo" "insider" "hr" 2024) ].

End Data.

(** ** src/retriever.py *)

Module Retriever.

(** [SecureRetriever.__init__]: [self.documents]. *)
Definition documents : list Document :=
  map (fun data => mkDocument (fst data) (snd data)) Data.RAW_FINANCIAL_DATA.

(** [SecureRetriever.get_allowed_sensitivities]: the last branch is the
    source's [else:  # analyst or default]. *)
Definition get_allowed_sensitivities (user_role : string) : gset string :=
  if decide (user_role = "executive") then {[ "public"; "product"; "insider" ]}
  else if decide (user_role = "product_manager") then {[ "public"; "product" ]}
  else {[ "public" ]}.

(** The test of the list comprehension in [retrieve]. *)
Definition permitted (allowed : gset string) (doc : Document) : Prop :=
  in_str_set (dict_get (metadata doc) "sensitivity" (MStr "public")) allowed.

#[global] Instance permitted_dec allowed doc : Decision (permitted allowed doc).
Proof. unfold permitted; apply _. Defined.

Section WithStore.

(** [self.vector_store.similarity_search(query, k=...)]: the FAISS index,
    a collaborator outside the repository. *)
Variable similarity_search : string -> Z -> list Document.

(** [SecureRetriever.retrieve]. *)
Definition retrieve (query user_role : string) (k : Z) : list Document :=
  let allowed := get_allowed_sensitivities user_role in
  let all_docs := similarity_search query (k * 3) in
  let filtered_docs := filter (permitted allowed) all_docs in
  py_slice_to filtered_docs k.

End WithStore.

End Retriever.

(** ** [json.dumps] on the values the audit log holds *)

Module Json.

#[local] Unset Elimination Schemes.
Inductive json :=
| JStr (s : string)
| JInt (n : Z)
| JBool (b : bool)
| JList (items : list json)
| JObj (fields : list (string * json)).
#[local] Set Elimination Schemes.

Definition hex_digit (n : N) : ascii :=
  match String.get (N.to_nat n) "0123456789abcdef" with
  | Some c => c
  | None => "0"%char
  end.

(** One character of a string under [ensure_ascii=True]: the quote and
    the backslash are escaped, the usual control characters get their
    letter, every other character outside [' '..'~'] becomes [\u00xx]. *)
Definition escape_char (c : ascii) : string :=
  let n := PyStr.code c in
  if (n =? 34)%N then "\" +:+ PyStr.dquote
  else if (n =? 92)%N then "\\"
  else if (n =? 10)%N then "\n"
  else if (n =? 13)%N then "\r"
  else if (n =? 9)%N then "\t"
  else if (n =? 8)%N then "\b"
  else if (n =? 12)%N then "\f"
  else if PyStr.between 32 126 c then String c EmptyString
  else "\u00" +:+ String (hex_digit (n / 16)) (String (hex_digit (n mod 16)) EmptyString).

Fixpoint escape (s : string) : string :=
  match s with
  | EmptyString => EmptyString
  | String c s' => escape_char c +:+ escape s'
  end.

Definition encode_str (s : string) : string := PyStr.dquote +:+ escape s +:+ PyStr.dquote.

(** [json.dumps(v)] with the default separators [", "] and [": "]. *)
Fixpoint dumps (v : json) : string :=
  match v with
  | JStr s => encode_str s
  | JInt n => PyStr.str_of_int n
  | JBool true => "true"
  | JBool false => "false"
  | JList items => "[" +:+ PyStr.join ", " (map dumps items) +:+ "]"
  | JObj fields =>
      "{" +:+ PyStr.join ", " (map (fun kv => encode_str (fst kv) +:+ ": " +:+ dumps (snd kv)) fields)
      +:+ "}"
  end.

(** A metadata value as a JSON value. *)
Definition of_meta (v : metaval) : json :=
  match v with
  | MStr s => JStr s
  | MInt n => JInt n
  end.

End Json.

(** ** Python's [exec]

    [python_calculator] hands its text to the interpreter. The interpreter
    is a collaborator: a function from the program text, the globals and
    the locals to what the run does. [run_fragment] below fixes what CPython
    does on a small fragment (assignments and arithmetic on one line each,
    and the builtin [open]); it answers [None] outside the fragment. *)

Module PyExec.

(** The values a scope of the fragment can hold. *)
Inductive pyval :=
| VInt (n : Z)
| VFloat (x : float)
| VStr (s : string)
| VModule (name : string)
| VFile (path mode : string).

(** Operations on the world outside the process that an executed program
    performs. *)
Inductive io_event :=
| IoOpen (path mode : string).

(** How a run of [exec] ends: normally, with the locals it leaves; with an
    exception of class [Exception] and its text; or with an exception that
    is only a [BaseException] ([SystemExit], [KeyboardInterrupt]). *)
Inductive exec_outcome :=
| Completed (locals : gmap string pyval)
| RaisedException (detail : string)
| RaisedBaseException (name : string).

(** *** Tokens *)

Inductive token :=
| TInt (n : Z)
| TDec (digits : Z) (scale : nat)
| TName (s : string)
| TStr (s : string)
| TOp (c : ascii).

Definition is_digit (c : ascii) : bool := PyStr.between 48 57 c.

Definition is_name_start (c : ascii) : bool :=
  PyStr.between 65 90 c || PyStr.between 97 122 c || (PyStr.code c =? 95)%N.

Definition is_name_char (c : ascii) : bool := is_name_start c || is_digit c.

Definition is_op (c : ascii) : bool :=
  existsb (fun a => if ascii_dec a c then true else false)
    (list_ascii_of_string "+-*/()=,").

Definition digit_value (c : ascii) : Z := Z.of_N (PyStr.code c) - 48.

(** What the lexer is in the middle of. *)
Inductive lexing :=
| LIdle
| LInt (n : Z) (leading_zero : bool)
| LDot (n : Z)
| LDec (n : Z) (scale : nat)
| LName (s : string)
| LStr (s : string).

(** The token a state stands for when the text moves on. *)
Definition flush (st : lexing) : option (list token) :=
  match st with
  | LIdle => Some []
  | LInt n _ => Some [TInt n]
  | LDot _ => None
  | LDec n scale => Some [TDec n scale]
  | LName s => Some [TName s]
  | LStr _ => None
  end.

(** One character read with no token under way. *)
Definition idle_step (c : ascii) : option (lexing * list token) :=
  if ascii_dec c " " then Some (LIdle, [])
  else if is_digit c then Some (LInt (digit_value c) (PyStr.code c =? 48)%N, [])
  else if is_name_start c then Some (LName (String c EmptyString), [])
  else if ascii_dec c "'" then Some (LStr EmptyString, [])
  else if is_op c then Some (LIdle, [TOp c])
  else None.

(** The token [tok] is complete and [c] is the character after it. *)
Definition close_with (tok : token) (c : ascii) : option (lexing * list token) :=
  match idle_step c with
  | Some (st, out) => Some (st, tok :: out)
  | None => None
  end.

(** One step of the lexer. Numbers are [0], a digit string without a
    leading zero, or such an integer part followed by a dot and digits;
    strings are single-quoted, printable and free of backslashes. *)
Definition lex_step (st : lexing) (c : ascii) : option (lexing * list token) :=
  match st with
  | LIdle => idle_step c
  | LInt n leading_zero =>
      if is_digit c
      then (if leading_zero then None else Some (LInt (10 * n + digit_value c) false, []))
      else if ascii_dec c "." then Some (LDot n, [])
      else if is_name_char c then None
      else close_with (TInt n) c
  | LDot n =>
      if is_digit c then Some (LDec (10 * n + digit_value c) 1, []) else None
  | LDec n scale =>
      if is_digit c then Some (LDec (10 * n + digit_value c) (S scale), [])
      else if is_name_char c || (if ascii_dec c "." then true else false) then None
      else close_with (TDec n scale) c
  | LName name =>
      if is_name_char c then Some (LName (name +:+ String c EmptyString), [])
      else if ascii_dec c "'" then None
      else close_with (TName name) c
  | LStr body =>
      if ascii_dec c "'" then Some (LIdle, [TStr body])
      else if PyStr.between 32 126 c && negb (PyStr.code c =? 92)%N
      then Some (LStr (body +:+ String c EmptyString), [])
      else None
  end.

(** The tokens of one line. *)
Fixpoint lex (st : lexing) (s : string) : option (list token) :=
  match s with
  | EmptyString => flush st
  | String c rest =>
      match lex_step st c with
      | Some (st', out) => option_map (app out) (lex st' rest)
      | None => None
      end
  end.

(** *** Expressions and statements *)

Inductive binop := Add | Sub | Mul | Div.

#[local] Unset Elimination Schemes.
Inductive expr :=
| ENum (n : Z)
| EDec (digits : Z) (scale : nat)
| EStr (s : string)
| EName (x : string)
| ENeg (e : expr)
| EBin (op : binop) (l r : expr)
| ECall (f : string) (args : list expr).
#[local] Set Elimination Schemes.

Inductive stmt :=
| SAssign (x : string) (e : expr)
| SExpr (e : expr).

(** The reserved words: none of them is a name. *)
Definition keywords : list string :=
  [ "False"; "None"; "True"; "and"; "as"; "assert"; "async"; "await"; "break";
    "class"; "continue"; "def"; "del"; "elif"; "else"; "except"; "finally";
    "for"; "from"; "global"; "if"; "import"; "in"; "is"; "lambda"; "nonlocal";
    "not"; "or"; "pass"; "raise"; "return"; "try"; "while"; "with"; "yield" ].

Definition is_keyword (x : string) : bool := bool_decide (x ∈ keywords).

Definition sum_op (c : ascii) : option binop :=
  if ascii_dec c "+" then Some Add else if ascii_dec c "-" then Some Sub else None.

Definition prod_op (c : ascii) : option binop :=
  if ascii_dec c "*" then Some Mul else if ascii_dec c "/" then Some Div else None.

(** Recursive descent with the precedences of Python: sums of products of
    signed atoms. Each call spends one unit of fuel. *)
Fixpoint parse_sum (fuel : nat) (toks : list token) : option (expr * list token) :=
  match fuel with
  | O => None
  | S f =>
      match parse_prod f toks with
      | Some (e, rest) => parse_sum_rest f e rest
      | None => None
      end
  end
with parse_sum_rest (fuel : nat) (acc : expr) (toks : list token) : option (expr * list token) :=
  match fuel with
  | O => None
  | S f =>
      match toks with
      | TOp c :: rest =>
          match sum_op c with
          | Some op =>
              match parse_prod f rest with
              | Some (e, rest') => parse_sum_rest f (EBin op acc e) rest'
              | None => None
              end
          | None => Some (acc, toks)
          end
      | _ => Some (acc, toks)
      end
  end
with parse_prod (fuel : nat) (toks : list token) : option (expr * list token) :=
  match fuel with
  | O => None
  | S f =>
      match parse_unary f toks with
      | Some (e, rest) => parse_prod_rest f e rest
      | None => None
      end
  end
with parse_prod_rest (fuel : nat) (acc : expr) (toks : list token) : option (expr * list token) :=
  match fuel with
  | O => None
  | S f =>
      match toks with
      | TOp c :: rest =>
          match prod_op c with
          | Some op =>
              match parse_unary f rest with
              | Some (e, rest') => parse_prod_rest f (EBin op acc e) rest'
              | None => None
              end
          | None => Some (acc, toks)
          end
      | _ => Some (acc, toks)
      end
  end
with parse_unary (fuel : nat) (toks : list token) : option (expr * list token) :=
  match fuel with
  | O => None
  | S f =>
      match toks with
      | TOp "-" :: rest =>
          match parse_unary f rest with
          | Some (e, rest') => Some (ENeg e, rest')
          | None => None
          end
      | TInt n :: rest => Some (ENum n, rest)
      | TDec n scale :: rest => Some (EDec n scale, rest)
      | TStr s :: rest => Some (EStr s, rest)
      | TName x :: TOp "(" :: TOp ")" :: rest =>
          if is_keyword x then None else Some (ECall x [], rest)
      | TName x :: TOp "(" :: rest =>
          if is_keyword x then None
          else
            match parse_args f rest with
            | Some (args, rest') => Some (ECall x args, rest')
            | None => None
            end
      | TName x :: rest => if is_keyword x then None else Some (EName x, rest)
      | TOp "(" :: rest =>
          match parse_sum f rest with
          | Some (e, TOp ")" :: rest') => Some (e, rest')
          | _ => None
          end
      | _ => None
      end
  end
with parse_args (fuel : nat) (toks : list token) : option (list expr * list token) :=
  match fuel with
  | O => None
  | S f =>
      match parse_sum f toks with
      | Some (e, TOp ")" :: rest) => Some ([e], rest)
      | Some (e, TOp "," :: rest) =>
          match parse_args f rest with
          | Some (es, rest') => Some (e :: es, rest')
          | None => None
          end
      | _ => None
      end
  end.

Definition parse_fuel (toks : list token) : nat := (8 * length toks + 8)%nat.

(** A whole expression. *)
Definition parse_expr (toks : list token) : option expr :=
  match parse_sum (parse_fuel toks) toks with
  | Some (e, []) => Some e
  | _ => None
  end.

(** A statement: an assignment to one name, or an expression. A string
    alone is left out: as the first statement it is a docstring. *)
Definition parse_stmt (toks : list token) : option stmt :=
  match toks with
  | TName x :: TOp "=" :: rest =>
      if is_keyword x then None else option_map (SAssign x) (parse_expr rest)
  | _ =>
      match parse_expr toks with
      | Some (EStr _) => None
      | Some e => Some (SExpr e)
      | None => None
      end
  end.

(** A line that is a statement followed by one more binary operator: the
    text CPython rejects as [invalid syntax]. *)
Definition dangling_operator (toks : list token) : bool :=
  match reverse toks with
  | TOp c :: before =>
      match sum_op c, prod_op c, parse_stmt (reverse before) with
      | None, None, _ => false
      | _, _, Some _ => true
      | _, _, None => false
      end
  | _ => false
  end.

(** *** Evaluation *)

(** An integer as a [float], when the conversion is exact. *)
Definition float_of_Z (n : Z) : option float :=
  if Z.abs n <? 2 ^ 53
  then Some (if n <? 0
             then PrimFloat.opp (PrimFloat.of_uint63 (Uint63.of_Z (- n)))
             else PrimFloat.of_uint63 (Uint63.of_Z n))
  else None.

(** The decimal literal [digits / 10 ^ scale]: numerator and denominator
    are exact floats, so their quotient is the literal rounded to nearest,
    which is how CPython reads it. *)
Definition float_of_decimal (digits : Z) (scale : nat) : option float :=
  if (scale <=? 15)%nat
  then
    match float_of_Z digits, float_of_Z (10 ^ Z.of_nat scale) with
    | Some n, Some d => Some (PrimFloat.div n d)
    | _, _ => None
    end
  else None.

Definition as_float (v : pyval) : option float :=
  match v with
  | VInt n => float_of_Z n
  | VFloat x => Some x
  | _ => None
  end.

(** What evaluating an expression gives: a value or the text of an
    exception of class [Exception]. *)
Definition answer : Type := string + pyval.

(** [l op r] on numbers. Integer operands stay integers except under [/];
    a mixed operation is done on floats. Division of a float by zero is
    left out. *)
Definition arith (op : binop) (l r : pyval) : option answer :=
  match l, r with
  | VInt a, VInt b =>
      match op with
      | Add => Some (inr (VInt (a + b)))
      | Sub => Some (inr (VInt (a - b)))
      | Mul => Some (inr (VInt (a * b)))
      | Div =>
          if b =? 0 then Some (inl "division by zero")
          else
            match float_of_Z a, float_of_Z b with
            | Some x, Some y => Some (inr (VFloat (PrimFloat.div x y)))
            | _, _ => None
            end
      end
  | _, _ =>
      match as_float l, as_float r with
      | Some x, Some y =>
          match op with
          | Add => Some (inr (VFloat (PrimFloat.add x y)))
          | Sub => Some (inr (VFloat (PrimFloat.sub x y)))
          | Mul => Some (inr (VFloat (PrimFloat.mul x y)))
          | Div =>
              if PrimFloat.eqb y PrimFloat.zero then None
              else Some (inr (VFloat (PrimFloat.div x y)))
          end
      | _, _ => None
      end
  end.

Definition negate (v : pyval) : option answer :=
  match v with
  | VInt n => Some (inr (VInt (- n)))
  | VFloat x => Some (inr (VFloat (PrimFloat.opp x)))
  | _ => None
  end.

Section Eval.

(** The two dictionaries given to [exec]. With no [__builtins__] key in
    the globals the interpreter makes the builtins available. *)
Variable globals locals : gmap string pyval.

(** A name is looked up in the locals, then in the globals. *)
Definition lookup_name (x : string) : option pyval :=
  match locals !! x with
  | Some v => Some v
  | None => globals !! x
  end.

(** The value of an expression and the operations it performs on the way.
    The one builtin of the fragment is [open(path, mode)] for the modes
    that create the file. *)
Fixpoint eval (e : expr) : option (list io_event * answer) :=
  match e with
  | ENum n => Some ([], inr (VInt n))
  | EDec digits scale => option_map (fun x => ([], inr (VFloat x))) (float_of_decimal digits scale)
  | EStr s => Some ([], inr (VStr s))
  | EName x => option_map (fun v => ([], inr v)) (lookup_name x)
  | ENeg e1 =>
      match eval e1 with
      | Some (io, inr v) => option_map (pair io) (negate v)
      | other => other
      end
  | EBin op l r =>
      match eval l with
      | Some (io1, inr a) =>
          match eval r with
          | Some (io2, inr b) => option_map (pair (io1 ++ io2)) (arith op a b)
          | Some (io2, inl err) => Some (io1 ++ io2, inl err)
          | None => None
          end
      | other => other
      end
  | ECall f [EStr path; EStr mode] =>
      match lookup_name f with
      | Some _ => None
      | None =>
          if bool_decide (f = "open") && bool_decide (mode = "w" \/ mode = "a")
          then Some ([IoOpen path mode], inr (VFile path mode))
          else None
      end
  | ECall _ _ => None
  end.

End Eval.

(** The statements in order; an exception ends the run. *)
Fixpoint run_stmts (globals locals : gmap string pyval) (prog : list stmt)
  : option (list io_event * exec_outcome) :=
  match prog with
  | [] => Some ([], Completed locals)
  | st :: rest =>
      let e := match st with SAssign _ e => e | SExpr e => e end in
      match eval globals locals e with
      | Some (io, inr v) =>
          let locals' := match st with SAssign x _ => <[x := v]> locals | SExpr _ => locals end in
          option_map (fun r => (io ++ fst r, snd r)) (run_stmts globals locals' rest)
      | Some (io, inl err) => Some (io, RaisedException err)
      | None => None
      end
  end.

(** How one line of the program reads. *)
Inductive line_reading :=
| Blank
| Statement (st : stmt)
| Invalid.

Definition read_line (line : string) : option line_reading :=
  match lex LIdle line with
  | Some [] => Some Blank
  | Some toks =>
      if PyStr.startswith " " line then None
      else if dangling_operator toks then Some Invalid
      else option_map Statement (parse_stmt toks)
  | None => None
  end.

(** The lines of a program, numbered from [lineno]: the statements, or the
    number of the first line that is invalid. *)
Fixpoint read_lines (lineno : Z) (lines : list string) : option (Z + list stmt) :=
  match lines with
  | [] => Some (inr [])
  | line :: rest =>
      match read_line line, read_lines (lineno + 1) rest with
      | Some Invalid, Some _ => Some (inl lineno)
      | Some Blank, Some r => Some r
      | Some (Statement st), Some (inr prog) => Some (inr (st :: prog))
      | Some (Statement _), Some (inl n) => Some (inl n)
      | _, _ => None
      end
  end.

(** [exec(code, globals, locals)] on the fragment. A program with an
    invalid line is rejected when it is compiled, before anything runs. *)
Definition run_fragment (code : string) (globals locals : gmap string pyval)
  : option (list io_event * exec_outcome) :=
  match read_lines 1 (PyStr.split PyStr.newline code) with
  | Some (inr prog) => run_stmts globals locals prog
  | Some (inl lineno) =>
      Some ([], RaisedException ("invalid syntax (<string>, line " +:+ PyStr.str_of_int lineno +:+ ")"))
  | None => None
  end.

End PyExec.

(** ** The state around the workflow

    The functions of the repository that act on the world do so through
    the audit file, the module-level variable [_retrieved_docs], the clock
    and their collaborators. A computation takes the world and gives back a
    result or a raised exception, and the world after it. *)

Module Runtime.

(** [langchain_core.messages]. *)
Inductive message :=
| HumanMessage (content : string)
| AIMessage (content : string)
| SystemMessage (content : string).

Definition content (m : message) : string :=
  match m with
  | HumanMessage c => c
  | AIMessage c => c
  | SystemMessage c => c
  end.

(** The calls that leave the process, in the order they are made. *)
Inductive effect :=
| SimilaritySearch (query : string) (k : Z)
| ModelCall (prompt : list message)
| Exec (code : string) (io : list PyExec.io_event)
| FileAppend (path text : string).

Record world := mkWorld {
  audit_log : string;
  retrieved_docs : list Document;
  trace : list effect;
  ticks : nat
}.

Inductive exn :=
| KeyError (key : string)
| IndexError
| GraphRecursionError
| BaseException (name : string).

Definition M (A : Type) : Type := world -> (exn + A) * world.

Definition ret {A} (a : A) : M A := fun w => (inr a, w).

Definition raise {A} (e : exn) : M A := fun w => (inl e, w).

Definition bind {A B} (m : M A) (k : A -> M B) : M B :=
  fun w =>
    match m w with
    | (inr a, w') => k a w'
    | (inl e, w') => (inl e, w')
    end.

(** Record one call in the trace. *)
Definition emit (e : effect) : M unit :=
  fun w => (inr tt, mkWorld (audit_log w) (retrieved_docs w) (trace w ++ [e]) (ticks w)).

(** [l[-1]]. *)
Definition last_item {A} (l : list A) : M A :=
  match last l with
  | Some a => ret a
  | None => raise IndexError
  end.

(** [d[key]] on a metadata dictionary. *)
Definition dict_item (d : gmap string metaval) (key : string) : M metaval :=
  match d !! key with
  | Some v => ret v
  | None => raise (KeyError key)
  end.

(** [str(v)] for a metadata value. *)
Definition str_of_meta (v : metaval) : string :=
  match v with
  | MStr s => s
  | MInt n => PyStr.str_of_int n
  end.

(** A loop body run over a list, left to right. *)
Fixpoint mapM {A B} (f : A -> M B) (l : list A) : M (list B) :=
  match l with
  | [] => ret []
  | a :: rest => bind (f a) (fun b => bind (mapM f rest) (fun bs => ret (b :: bs)))
  end.

End Runtime.

Notation "'let*' x := m 'in' k" := (Runtime.bind m (fun x => k))
  (at level 10, x name, m at level 100, k at level 200).

(** ** src/guardrails.py *)

Module Guardrails.

(** [PII_PATTERNS], in the order of the dictionary literal. *)
Definition PII_PATTERNS : list (string * string) :=
  [ ("ssn", "\b\d{3}-\d{2}-\d{4}\b");
    ("credit_card", "\b\d{4}[-\s]?\d{4}[-\s]?\d{4}[-\s]?\d{4}\b");
    ("email", "\b[A-Za-z0-9._%+-]+@[A-Za-z0-9.-]+\.[A-Z|a-z]{2,}\b");
    ("phone", "\b\d{3}[-.]?\d{3}[-.]?\d{4}\b") ].

(** The loop of [check_pii] over [PII_PATTERNS.items()]. *)
Fixpoint check_pii_items (items : list (string * string)) (text : string) : bool * string :=
  match items with
  | [] => (false, "")
  | (pii_type, pattern) :: rest =>
      if Re.search pattern text then (true, pii_type)
      else check_pii_items rest text
  end.

(** [check_pii]. *)
Definition check_pii (text : string) : bool * string :=
  check_pii_items PII_PATTERNS text.

Definition confidence_phrases : list string :=
  [ "according to"; "the data shows"; "based on the documents" ].

Definition HALLUCINATION_BLOCK : string :=
  "[BLOCKED: Potential hallucination - no context but confident answer]".

(** [guardrail_check]. *)
Definition guardrail_check (context response : string) : bool * string :=
  let '(has_pii, pii_type) := check_pii response in
  if has_pii then (false, "[BLOCKED: " +:+ pii_type +:+ " detected in response]")
  else
    if negb (PyStr.truthy (PyStr.strip context)) && (100 <? PyStr.len response)
    then
      if existsb (fun phrase => PyStr.contains phrase (PyStr.lower response)) confidence_phrases
      then (false, HALLUCINATION_BLOCK)
      else (true, response)
    else (true, response).

(** [AUDIT_LOG_FILE] of src/config.py. *)
Definition AUDIT_LOG_FILE : string := "audit_log.jsonl".

Section AuditLog.

(** [datetime.now().isoformat()], as a function of the clock reading. *)
Variable now_isoformat : nat -> string.

(** The dictionary literal of [log_access], in the order of its keys. *)
Definition log_entry (timestamp user_role query : string) (docs_accessed : list Document)
    (response : string) : list (string * Json.json) :=
  [ ("timestamp", Json.JStr timestamp);
    ("user_role", Json.JStr user_role);
    ("query", Json.JStr query);
    ("docs_sensitivity",
      Json.JList (map (fun d => Json.of_meta (dict_get (metadata d) "sensitivity" (MStr "unknown")))
                      docs_accessed));
    ("docs_sources",
      Json.JList (map (fun d => Json.of_meta (dict_get (metadata d) "source" (MStr "unknown")))
                      docs_accessed));
    ("response_length", Json.JInt (PyStr.len response));
    ("guardrail_triggered", Json.JBool false) ].

(** [log_access]: the entry is built, written as one line at the end of
    the audit file, and returned. *)
Definition log_access (user_role query : string) (docs_accessed : list Document)
    (response : string) : Runtime.M (list (string * Json.json)) :=
  fun w =>
    let entry := log_entry (now_isoformat (Runtime.ticks w)) user_role query docs_accessed response in
    let line := Json.dumps (Json.JObj entry) +:+ PyStr.newline in
    (inr entry,
     Runtime.mkWorld (Runtime.audit_log w +:+ line)
                     (Runtime.retrieved_docs w)
                     (Runtime.trace w ++ [Runtime.FileAppend AUDIT_LOG_FILE line])
                     (S (Runtime.ticks w))).

End AuditLog.

Section Calculator.

(** Python's [exec], and [str] on the values it leaves in a scope. *)
Variable exec : string -> gmap string PyExec.pyval -> gmap string PyExec.pyval
                -> list PyExec.io_event * PyExec.exec_outcome.
Variable str_of : PyExec.pyval -> string.

(** [clean_code] of [python_calculator]. *)
Definition clean_code (code_snippet : string) : string :=
  PyStr.strip (PyStr.replace "```" "" (PyStr.replace "```python" "" code_snippet)).

Definition MISSING_RESULT : string :=
  "Error: Please assign your answer to a variable named 'result'.".

(** [python_calculator]: the operations the executed code performs, and
    the returned text, or the exception that [except Exception] lets
    through. *)
Definition python_calculator (code_snippet : string)
  : list PyExec.io_event * (Runtime.exn + string) :=
  let local_scope : gmap string PyExec.pyval := {[ "math" := PyExec.VModule "math" ]} in
  match exec (clean_code code_snippet) ∅ local_scope with
  | (io, PyExec.Completed local_scope') =>
      match local_scope' !! "result" with
      | Some v => (io, inr ("Calculated Result: " +:+ str_of v))
      | None => (io, inr MISSING_RESULT)
      end
  | (io, PyExec.RaisedException e) => (io, inr ("Calculation Error: " +:+ e))
  | (io, PyExec.RaisedBaseException name) => (io, inl (Runtime.BaseException name))
  end.

End Calculator.

End Guardrails.

(** ** src/agent.py *)

Module Agent.

Import Runtime.

(** [FinancialState]. The caller supplies the messages and the role; the
    other two keys are absent until a node writes them. *)
Record FinancialState := mkState {
  messages : list message;
  user_role : string;
  context : option string;
  guardrail_triggered : option bool
}.

(** What a node returns: the keys it writes. *)
Record update := mkUpdate {
  new_messages : list message;
  new_context : option string;
  new_guardrail_triggered : option bool
}.

(** The merge of a node's result into the state: [add_messages] appends
    to the history, every other key written is overwritten. *)
Definition apply_update (st : FinancialState) (u : update) : FinancialState :=
  mkState (messages st ++ new_messages u)
          (user_role st)
          (match new_context u with Some c => Some c | None => context st end)
          (match new_guardrail_triggered u with
           | Some b => Some b
           | None => guardrail_triggered st
           end).

(** [state["context"]]. *)
Definition state_context (st : FinancialState) : M string :=
  match context st with
  | Some c => ret c
  | None => raise (KeyError "context")
  end.

Definition FENCE : string := "```python".

Definition CALCULATION_PROMPT : string :=
  "You have the calculated data. Now answer the user's question concisely using the result.".

Definition tone_of (user_role : string) : string :=
  if decide (user_role = "executive")
  then "Be extremely concise. Use bullet points. Focus on risks and strategic impact."
  else if decide (user_role = "product_manager")
  then "Focus on product implications. Highlight timelines and feature impacts."
  else "Be detailed and thorough. Cite specific documents found.".

(** The f-string of [generate_node]. *)
Definition role_prompt (user_role tone context : string) : string :=
  "You are a Financial Insights Assistant.

USER ROLE: " +:+ user_role +:+ "
INSTRUCTION: " +:+ tone +:+ "

RETRIEVED CONTEXT:
" +:+ context +:+ "

RULES:
- Only use information from the provided context
- If context is empty or irrelevant, say " +:+ PyStr.dquote
  +:+ "I don't have access to that information." +:+ PyStr.dquote +:+ "
- Never make up financial data
- If the user asks for a CALCULATION (growth, percentages, projections), write Python code to compute it.
  Wrap code in ```python blocks and assign the final value to a variable named 'result'.
".

(** U+274C, the cross mark of the message of [ask]. It lies outside the
    alphabet of the model and is carried as its UTF-8 bytes. *)
Definition CROSS_MARK : string := "❌".

Definition invalid_role_message (role : string) : string :=
  CROSS_MARK +:+ " Invalid role: " +:+ role
  +:+ ". Use 'analyst', 'product_manager', or 'executive'".

(** The routes of the conditional edge. *)
Inductive route := execute_tool | END.

(** The nodes of the graph. *)
Inductive node := retrieve | generate | tool_executor.

Section Workflow.

(** The collaborators: the FAISS index, the chat model, the interpreter
    with [str], and the clock. *)
Variable similarity_search : string -> Z -> list Document.
Variable llm_invoke : list message -> string.
Variable exec : string -> gmap string PyExec.pyval -> gmap string PyExec.pyval
                -> list PyExec.io_event * PyExec.exec_outcome.
Variable str_of : PyExec.pyval -> string.
Variable now_isoformat : nat -> string.

(** The bound LangGraph puts on the node executions of one run
    ([recursion_limit], 25 unless configured); a run that would need more
    raises [GraphRecursionError]. *)
Variable recursion_limit : nat.

(** One line of the context text of [retrieve_node]. *)
Definition source_line (d : Document) : M string :=
  let* sensitivity := dict_item (metadata d) "sensitivity" in
  let* source := dict_item (metadata d) "source" in
  ret ("Source (" +:+ str_of_meta sensitivity +:+ ", " +:+ str_of_meta source +:+ "): "
       +:+ page_content d).

(** [retrieve_node]. *)
Definition retrieve_node (state : FinancialState) : M update :=
  let* last_message := last_item (messages state) in
  let user_query := content last_message in
  let user_role := user_role state in
  let* _ := emit (SimilaritySearch user_query (3 * 3)) in
  let docs := Retriever.retrieve similarity_search user_query user_role 3 in
  let* _ := (fun w => (inr tt, mkWorld (audit_log w) docs (trace w) (ticks w))) in
  let* lines := mapM source_line docs in
  let context_text := PyStr.join (PyStr.newline +:+ PyStr.newline) lines in
  ret (mkUpdate [] (Some context_text) None).

(** [generate_node]. *)
Definition generate_node (state : FinancialState) : M update :=
  let* context := state_context state in
  let user_role := user_role state in
  let messages := messages state in
  let* last_message := last_item messages in
  let system_prompt :=
    match last_message with
    | HumanMessage c =>
        if PyStr.contains "Calculated Result:" c then CALCULATION_PROMPT
        else role_prompt user_role (tone_of user_role) context
    | _ => role_prompt user_role (tone_of user_role) context
    end in
  let prompt_sequence := SystemMessage system_prompt :: messages in
  let* _ := emit (ModelCall prompt_sequence) in
  let response := AIMessage (llm_invoke prompt_sequence) in
  let '(passed, final_response) := Guardrails.guardrail_check context (content response) in
  if negb passed
  then ret (mkUpdate [HumanMessage final_response] None (Some true))
  else
    let* _ :=
      if negb (PyStr.contains FENCE (content response))
      then
        let* docs := (fun w => (inr (retrieved_docs w), w)) in
        let* _ := Guardrails.log_access now_isoformat user_role (content last_message) docs
                    (content response) in
        ret tt
      else ret tt in
    ret (mkUpdate [response] None (Some false)).

(** [tool_node]. *)
Definition tool_node (state : FinancialState) : M update :=
  let* last_message := last_item (messages state) in
  let content := content last_message in
  if PyStr.contains FENCE content
  then
    let* after := match PyStr.split FENCE content !! 1%nat with
                  | Some x => ret x
                  | None => raise IndexError
                  end in
    let* code_block := match PyStr.split "```" after !! 0%nat with
                       | Some x => ret x
                       | None => raise IndexError
                       end in
    let '(io, outcome) := Guardrails.python_calculator exec str_of code_block in
    let* _ := emit (Exec (Guardrails.clean_code code_block) io) in
    match outcome with
    | inr output => ret (mkUpdate [HumanMessage output] None None)
    | inl e => raise e
    end
  else ret (mkUpdate [] None None).

(** [should_continue]. *)
Definition should_continue (state : FinancialState) : M route :=
  let* last_message := last_item (messages state) in
  if PyStr.contains FENCE (content last_message) then ret execute_tool else ret END.

(** The compiled graph, run from a node: [retrieve] leads to [generate],
    [generate] to the route [should_continue] picks, [tool_executor] back
    to [generate]. Each node execution spends one unit of the limit. *)
Fixpoint run_from (fuel : nat) (n : node) (state : FinancialState) : M FinancialState :=
  match fuel with
  | O => raise GraphRecursionError
  | S fuel' =>
      match n with
      | retrieve =>
          let* u := retrieve_node state in
          run_from fuel' generate (apply_update state u)
      | generate =>
          let* u := generate_node state in
          let state' := apply_update state u in
          let* next := should_continue state' in
          match next with
          | execute_tool => run_from fuel' tool_executor state'
          | END => ret state'
          end
      | tool_executor =>
          let* u := tool_node state in
          run_from fuel' generate (apply_update state u)
      end
  end.

(** [agent.invoke(inputs)]: the entry point is [retrieve]. *)
Definition agent_invoke (inputs : FinancialState) : M FinancialState :=
  run_from recursion_limit retrieve inputs.

(** [ask]. *)
Definition ask (question role : string) : M string :=
  if negb (bool_decide (role ∈ [ "analyst"; "product_manager"; "executive" ]))
  then ret (invalid_role_message role)
  else
    let inputs := mkState [HumanMessage question] role None None in
    let* result := agent_invoke inputs in
    let* last_message := last_item (messages result) in
    ret (content last_message).

End Workflow.

End Agent.

(** ** src/retriever.py: the display of the retrieved documents *)

Module Display.

(** The three markers of [get_docs_display], U+1F7E2, U+1F7E1 and U+1F534.
    They lie outside the alphabet of the model and are carried as their
    UTF-8 bytes. *)
Definition GREEN : string := "🟢".
Definition YELLOW : string := "🟡".
Definition RED : string := "🔴".

Definition NO_DOCUMENTS : string := "No documents retrieved.".

(** The failure of [sensitivity.upper()] on a value that is no string. *)
Inductive error := AttributeError.

Section WithStore.

Variable similarity_search : string -> Z -> list Document.

(** [str.upper]. Three characters below 256 have their upper case
    outside the alphabet of the model, so the method is a parameter. *)
Variable str_upper : string -> string.

(** The body of the loop of [get_docs_display]. *)
Definition display_block (doc : Document) : error + string :=
  let sensitivity := dict_get (metadata doc) "sensitivity" (MStr "unknown") in
  let source := dict_get (metadata doc) "source" (MStr "unknown") in
  let emoji :=
    if decide (sensitivity = MStr "public") then GREEN
    else if decide (sensitivity = MStr "product") then YELLOW
    else RED in
  match sensitivity with
  | MStr label =>
      inr (emoji +:+ " **[" +:+ str_upper label +:+ "]** (" +:+ Runtime.str_of_meta source +:+ ")"
           +:+ PyStr.newline +:+ PyStr.take_chars 150 (page_content doc) +:+ "...")
  | MInt _ => inl AttributeError
  end.

(** The loop, document by document. *)
Fixpoint display_blocks (docs : list Document) : error + list string :=
  match docs with
  | [] => inr []
  | doc :: rest =>
      match display_block doc with
      | inl e => inl e
      | inr block =>
          match display_blocks rest with
          | inl e => inl e
          | inr blocks => inr (block :: blocks)
          end
      end
  end.

(** [SecureRetriever.get_docs_display]. *)
Definition get_docs_display (query user_role : string) : error + string :=
  let docs := Retriever.retrieve similarity_search query user_role 3 in
  match docs with
  | [] => inr NO_DOCUMENTS
  | _ =>
      match display_blocks docs with
      | inl e => inl e
      | inr display => inr (PyStr.join (PyStr.newline +:+ PyStr.newline) display)
      end
  end.

End WithStore.

End Display.

(** ** src/ui.py *)

Module Ui.

(** [update_role_info]. The circles are those of [get_docs_display]. *)
Definition update_role_info (selected_role : string) : string :=
  if decide (selected_role = "analyst")
  then Display.GREEN
       +:+ " **Analyst**: Access to public financial data only (earnings, press releases)."
  else if decide (selected_role = "product_manager")
  then Display.YELLOW +:+ " **Product Manager**: Access to public + product roadmap data."
  else Display.RED +:+ " **Executive**: Full access including confidential insider data.".

Definition ENTER_A_QUESTION : string := "Please enter a question.".

(** What [chat_with_role] can raise: what [ask] raises, or the failure of
    the display. *)
Inductive ui_exn :=
| FromAgent (e : Runtime.exn)
| FromDisplay (e : Display.error).

Section Chat.

Variable similarity_search : string -> Z -> list Document.
Variable llm_invoke : list Runtime.message -> string.
Variable exec : string -> gmap string PyExec.pyval -> gmap string PyExec.pyval
                -> list PyExec.io_event * PyExec.exec_outcome.
Variable str_of : PyExec.pyval -> string.
Variable now_isoformat : nat -> string.
Variable recursion_limit : nat.
Variable str_upper : string -> string.

(** [chat_with_role]. The history is a list of [[message, response]]
    pairs; the second search is the one [get_docs_display] makes. *)
Definition chat_with_role (message : string) (history : list (string * string)) (role : string)
    (w : Runtime.world) : (ui_exn + (list (string * string) * string)) * Runtime.world :=
  if negb (PyStr.truthy (PyStr.strip message))
  then (inr (history, ENTER_A_QUESTION), w)
  else
    match Agent.ask similarity_search llm_invoke exec str_of now_isoformat recursion_limit
            message role w with
    | (inl e, w1) => (inl (FromAgent e), w1)
    | (inr response, w1) =>
        let w2 := snd (Runtime.emit (Runtime.SimilaritySearch message (3 * 3)) w1) in
        match Display.get_docs_display similarity_search str_upper message role with
        | inl e => (inl (FromDisplay e), w2)
        | inr docs_display => (inr (history ++ [(message, response)], docs_display), w2)
        end
    end.

End Chat.

End Ui.

(** * Vocabulary of the properties

    The notions of the specification the properties are stated with, and
    the concrete collaborators of the examples. *)

(** ** Access policy and secure retrieval *)

(** The closed set of roles, as [ask] lists it. *)
Definition ROLES : list string := [ "analyst"; "product_manager"; "executive" ].

Inductive policy_error := UnknownRole.

(** The access policy in the words of the specification: a label set for
    each role of the closed set, and the [UnknownRole] failure outside it. *)
Definition allowed_labels_spec (role : string) : policy_error + gset string :=
  if decide (role = "analyst") then inr {[ "public" ]}
  else if decide (role = "product_manager") then inr {[ "public"; "product" ]}
  else if decide (role = "executive") then inr {[ "public"; "product"; "insider" ]}
  else inl UnknownRole.


(** What a returned document carries under the key [sensitivity]: a stored
    label lies in the allowed set; a document without the key is read as
    [public] by the filter. *)
Definition label_within (allowed : gset string) (doc : Document) : Prop :=
  match metadata doc !! "sensitivity" with
  | Some v => in_str_set v allowed
  | None => "public" ∈ allowed
  end.

(** A store for the examples: the ingested corpus in its own order, cut to
    the requested size. *)
Definition corpus_search (query : string) (k : Z) : list Document :=
  py_slice_to Retriever.documents k.

(** ** Guardrail engine *)

(** Every character of the string is white space. *)
Definition whitespace_only (s : string) : Prop :=
  Forall (fun c => PyStr.isspace c = true) (list_ascii_of_string s).

(** [text] contains [phrase] up to the case of its letters. *)
Definition contains_ci (text phrase : string) : Prop :=
  exists pre mid post, text = pre +:+ mid +:+ post /\ PyStr.lower mid = phrase.

(** No pattern of the registry matches the text. *)
Definition no_pii (text : string) : Prop :=
  Forall (fun kp => Re.search (snd kp) text = false) Guardrails.PII_PATTERNS.

(** [kind] is the first kind of the registry whose pattern matches. *)
Definition first_pii_kind (text kind : string) : Prop :=
  exists before pattern after,
    Guardrails.PII_PATTERNS = before ++ (kind, pattern) :: after
    /\ Re.search pattern text = true
    /\ Forall (fun kp => Re.search (snd kp) text = false) before.

(** The unsupported-claim heuristic. *)
Definition unsupported_claim (context response : string) : Prop :=
  whitespace_only context
  /\ 100 < PyStr.len response
  /\ exists phrase, phrase ∈ Guardrails.confidence_phrases /\ contains_ci response phrase.

Definition pii_block (kind : string) : string :=
  "[BLOCKED: " +:+ kind +:+ " detected in response]".

Definition confident_answer : string :=
  "According to the data shows revenue tripled this quarter, and margins doubled across every segment of the business.".

(** ** Sandboxed evaluator *)


(** The interpreter of the examples: the fragment, and an error of its own
    outside it. *)
Definition fragment_exec (code : string) (globals locals : gmap string PyExec.pyval)
  : list PyExec.io_event * PyExec.exec_outcome :=
  match PyExec.run_fragment code globals locals with
  | Some r => r
  | None => ([], PyExec.RaisedException "outside the fragment")
  end.

(** [str] of the examples: exact on integers and strings. *)
Definition fragment_str (v : PyExec.pyval) : string :=
  match v with
  | PyExec.VInt n => PyStr.str_of_int n
  | PyExec.VStr s => s
  | PyExec.VFloat _ => "<float>"
  | PyExec.VModule name => "<module '" +:+ name +:+ "'>"
  | PyExec.VFile path _ => "<file '" +:+ path +:+ "'>"
  end.


(** ** Audit log *)

(** Every character is a printable ASCII character, [' '] to ['~']: in
    particular the text holds no line feed. *)
Definition printable (s : string) : Prop :=
  Forall (fun c => PyStr.between 32 126 c = true) (list_ascii_of_string s).

(** The same as a test. *)
Definition printableb (s : string) : bool :=
  forallb (PyStr.between 32 126) (list_ascii_of_string s).

(** Induction on JSON values, through the lists they nest. *)
Fixpoint json_nested_ind (P : Json.json -> Prop)
    (HStr : forall s, P (Json.JStr s))
    (HInt : forall n, P (Json.JInt n))
    (HBool : forall b, P (Json.JBool b))
    (HList : forall items, Forall P items -> P (Json.JList items))
    (HObj : forall fields, Forall (fun kv => P (snd kv)) fields -> P (Json.JObj fields))
    (v : Json.json) {struct v} : P v :=
  match v with
  | Json.JStr s => HStr s
  | Json.JInt n => HInt n
  | Json.JBool b => HBool b
  | Json.JList items =>
      HList items
        ((fix go (l : list Json.json) : Forall P l :=
            match l with
            | [] => List.Forall_nil P
            | x :: r =>
                @List.Forall_cons _ P x r (json_nested_ind P HStr HInt HBool HList HObj x) (go r)
            end) items)
  | Json.JObj fields =>
      HObj fields
        ((fix go (l : list (string * Json.json)) : Forall (fun kv => P (snd kv)) l :=
            match l with
            | [] => List.Forall_nil _
            | x :: r =>
                @List.Forall_cons _ (fun kv => P (snd kv)) x r
                  (json_nested_ind P HStr HInt HBool HList HObj (snd x)) (go r)
            end) fields)
  end.

(** The fields of the AuditEntry model of the specification. *)
Definition AuditEntry_fields : list string :=
  [ "timestamp"; "role"; "query"; "sensitivities_touched"; "sources_touched";
    "response_length"; "guardrail_triggered" ].

(** The keys [log_access] writes. *)
Definition log_entry_keys : list string :=
  [ "timestamp"; "user_role"; "query"; "docs_sensitivity"; "docs_sources";
    "response_length"; "guardrail_triggered" ].

(** ** Workflow engine *)



(** A model that answers every prompt with the same calculation
    directive. *)
Definition DIRECTIVE : string :=
  "```python" +:+ PyStr.newline +:+ "result = 1" +:+ PyStr.newline +:+ "```".

Definition directive_model (prompt : list Runtime.message) : string := DIRECTIVE.

(** A model that asks for one calculation and answers once it has the
    result. *)
Definition react_model (prompt : list Runtime.message) : string :=
  match last prompt with
  | Some (Runtime.HumanMessage c) =>
      if PyStr.contains "Calculated Result:" c then "The sum is 8."
      else "```python" +:+ PyStr.newline +:+ "result = 5 + 3" +:+ PyStr.newline +:+ "```"
  | _ => "The sum is 8."
  end.

Definition fixed_clock (tick : nat) : string := "2024-01-01T00:00:00".

Definition world0 : Runtime.world := Runtime.mkWorld EmptyString [] [] O.

Definition inputs0 : Agent.FinancialState :=
  Agent.mkState [Runtime.HumanMessage "What is 5 + 3?"] "analyst" None None.

(** The kind of a call of the trace. *)
Definition effect_kind (e : Runtime.effect) : string :=
  match e with
  | Runtime.SimilaritySearch _ _ => "search"
  | Runtime.ModelCall _ => "model"
  | Runtime.Exec _ _ => "exec"
  | Runtime.FileAppend _ _ => "audit"
  end.

(** ** Vocabulary of the further properties *)

(** The messages [guardrail_check] substitutes for a blocked response: one
    for each kind of the registry, and the hallucination message. *)
Definition BLOCK_MESSAGES : list string :=
  map (fun kp => pii_block (fst kp)) Guardrails.PII_PATTERNS ++ [Guardrails.HALLUCINATION_BLOCK].






(** The searches of a trace. *)
Definition searches (t : list Runtime.effect) : list (string * Z) :=
  omap (fun e => match e with Runtime.SimilaritySearch q k => Some (q, k) | _ => None end) t.

(** The document has the two keys [retrieve_node] reads. *)
Definition has_keys (d : Document) : Prop :=
  is_Some (metadata d !! "sensitivity") /\ is_Some (metadata d !! "source").

(** A document of the corpus without its [sensitivity] key. *)
Definition unlabelled_doc : Document :=
  mkDocument "Draft note." (<["source" := MStr "Scratch"]> ∅).


(** A store with nothing in it. *)
Definition empty_search (query : string) (k : Z) : list Document := [].

(** A model that answers plainly. *)
Definition plain_model (prompt : list Runtime.message) : string :=
  "Q3 revenue was $18.12 billion.".

(** A model that leaks a social security number. *)
Definition leaking_model (prompt : list Runtime.message) : string :=
  "The SSN is 123-45-6789".

(** A display block opens with the first byte of its marker. *)
Definition marked (block : string) : Prop := exists tail, block = String "240"%char tail.

(** [str.upper] on the ASCII letters, for the examples. *)
Definition ascii_upper (s : string) : string :=
  string_of_list_ascii
    (map (fun c => if PyStr.between 97 122 c then ascii_of_N (PyStr.code c - 32) else c)
         (list_ascii_of_string s)).

(** * Properties *)

(** ** Access policy and secure retrieval *)

Lemma permitted_label_within allowed doc :
  Retriever.permitted allowed doc <-> label_within allowed doc.
Proof.
  unfold Retriever.permitted, label_within, dict_get.
  destruct (metadata doc !! "sensitivity"); reflexivity.
Qed.

Lemma py_slice_to_sublist {A} (l : list A) k : py_slice_to l k `sublist_of` l.
Proof. unfold py_slice_to. destruct (k <? 0); apply sublist_take. Qed.

Lemma py_slice_to_nonneg {A} (l : list A) k :
  0 <= k -> py_slice_to l k = take (Z.to_nat k) l.
Proof.
  intros Hk. unfold py_slice_to.
  destruct (Z.ltb_spec k 0) as [Hlt | _]; [lia | reflexivity].
Qed.


Lemma corpus_is_labelled :
  Forall (fun d => exists l, metadata d !! "sensitivity" = Some (MStr l)
                             /\ l ∈ ({[ "public"; "product"; "insider" ]} : gset string))
         Retriever.documents.
Proof.
  unfold Retriever.documents, Data.RAW_FINANCIAL_DATA.
  repeat (apply Forall_cons; split;
          [ eexists; split; [ vm_compute; reflexivity | set_solver ] | ]).
  apply Forall_nil_2.
Qed.

Section RetrieverProperties.

Variable similarity_search : string -> Z -> list Document.

(** C1. Access invariant: for every role, query and [k], every document
    returned by [retrieve] carries a sensitivity label that belongs to the
    set [get_allowed_sensitivities] gives for the role. *)
Theorem retrieve_access_invariant (query user_role : string) (k : Z) :
  Forall (label_within (Retriever.get_allowed_sensitivities user_role))
         (Retriever.retrieve similarity_search query user_role k).
Proof.
  unfold Retriever.retrieve.
  apply Forall_forall. intros d Hd.
  apply permitted_label_within.
  assert (Hin : d ∈ filter (Retriever.permitted (Retriever.get_allowed_sensitivities user_role))
                       (similarity_search query (k * 3))).
  { eapply sublist_subseteq; [apply py_slice_to_sublist | exact Hd]. }
  apply list_elem_of_filter in Hin. tauto.
Qed.

(** On a store that holds the ingested corpus, the label is the stored
    one. *)
Lemma retrieve_corpus_labels (query user_role : string) (k : Z) :
  (forall q n, similarity_search q n ⊆ Retriever.documents) ->
  Forall (fun d => exists l, metadata d !! "sensitivity" = Some (MStr l)
                             /\ l ∈ Retriever.get_allowed_sensitivities user_role)
         (Retriever.retrieve similarity_search query user_role k).
Proof.
  intros Hstore. apply Forall_forall. intros d Hd.
  unfold Retriever.retrieve in Hd.
  apply (sublist_subseteq _ _ (py_slice_to_sublist _ k)) in Hd.
  apply list_elem_of_filter in Hd as [Hperm Hin].
  pose proof (proj1 (Forall_forall _ _) corpus_is_labelled d (Hstore _ _ d Hin))
    as (l & Hl & _).
  apply permitted_label_within in Hperm.
  unfold label_within in Hperm. rewrite Hl in Hperm. now exists l.
Qed.


End RetrieverProperties.


(** C2, as the code has it. [get_allowed_sensitivities] is total: on the
    closed set of roles it is the policy of the specification, and every
    other role receives the analyst's set [{public}] instead of an
    [UnknownRole] failure. *)
Theorem get_allowed_sensitivities_total_default (role : string) :
  Retriever.get_allowed_sensitivities role
  = match allowed_labels_spec role with
    | inr labels => labels
    | inl UnknownRole => {[ "public" ]}
    end.
Proof.
  unfold Retriever.get_allowed_sensitivities, allowed_labels_spec.
  repeat case_decide; subst; try discriminate; reflexivity.
Qed.

(** C2, as the specification states it, fails at the role [hacker]: the
    specification answers [UnknownRole], the code answers [{public}]. *)
Lemma get_allowed_sensitivities_hacker_counterexample :
  ("hacker" ∉ ROLES)
  /\ allowed_labels_spec "hacker" = inl UnknownRole
  /\ Retriever.get_allowed_sensitivities "hacker" = {[ "public" ]}
  /\ allowed_labels_spec "hacker" <> inr (Retriever.get_allowed_sensitivities "hacker").
Proof.
  split; [| split; [| split]].
  - unfold ROLES. rewrite !elem_of_cons, elem_of_nil.
    intros [H | [H | [H | []]]]; discriminate H.
  - reflexivity.
  - reflexivity.
  - discriminate.
Qed.

(** Monotonic access of the three roles. *)
Lemma allowed_sensitivities_monotone :
  Retriever.get_allowed_sensitivities "analyst" ⊆ Retriever.get_allowed_sensitivities "product_manager"
  /\ Retriever.get_allowed_sensitivities "product_manager" ⊆ Retriever.get_allowed_sensitivities "executive".
Proof.
  unfold Retriever.get_allowed_sensitivities; simpl.
  split; intros x; rewrite !elem_of_union, !elem_of_singleton; tauto.
Qed.

(** ** Guardrail engine *)

(** *** Facts about the string primitives *)

Lemma append_assoc a b c : (a +:+ b) +:+ c = a +:+ (b +:+ c).
Proof.
  induction a as [| x a IH]; [reflexivity |].
  change (String x ((a +:+ b) +:+ c) = String x (a +:+ (b +:+ c))). now rewrite IH.
Qed.

Lemma startswith_app sub s :
  PyStr.startswith sub s = true <-> exists post, s = sub +:+ post.
Proof.
  revert s. induction sub as [| a sub IH]; intros s; simpl.
  - split; [intros _; now exists s | reflexivity].
  - destruct s as [| b s].
    + split; [discriminate | intros [post H]; discriminate H].
    + destruct (ascii_dec a b) as [-> | Hne].
      * rewrite IH. split; intros [post H]; exists post.
        -- now rewrite H.
        -- now injection H.
      * split; [discriminate | intros [post H]; injection H; intros; congruence].
Qed.

Lemma contains_app sub s :
  PyStr.contains sub s = true <-> exists pre post, s = pre +:+ sub +:+ post.
Proof.
  induction s as [| c s IH].
  - simpl. rewrite orb_false_r, startswith_app. split.
    + intros [post H]. now exists EmptyString, post.
    + intros [pre [post H]]. destruct pre; [now exists post | discriminate H].
  - cbn [PyStr.contains]. rewrite orb_true_iff, IH, startswith_app. split.
    + intros [[post H] | [pre [post H]]].
      * now exists EmptyString, post.
      * exists (String c pre), post. simpl. now rewrite H.
    + intros [pre [post H]]. destruct pre as [| a pre].
      * left. now exists post.
      * right. exists pre, post. simpl in H. now injection H.
Qed.

Lemma lower_app s t : PyStr.lower (s +:+ t) = PyStr.lower s +:+ PyStr.lower t.
Proof. induction s as [| c s IH]; simpl; [reflexivity | now rewrite IH]. Qed.

Lemma lower_app_inv s x y :
  PyStr.lower s = x +:+ y ->
  exists s1 s2, s = s1 +:+ s2 /\ PyStr.lower s1 = x /\ PyStr.lower s2 = y.
Proof.
  revert s. induction x as [| a x IH]; intros s H.
  - now exists EmptyString, s.
  - destruct s as [| c s]; [discriminate H |].
    simpl in H. injection H as Ha Hx.
    destruct (IH s Hx) as (s1 & s2 & -> & H1 & H2).
    exists (String c s1), s2. simpl. now rewrite Ha, H1.
Qed.

Lemma lstrip_empty s : PyStr.lstrip s = EmptyString <-> whitespace_only s.
Proof.
  unfold whitespace_only. induction s as [| c s IH]; simpl.
  - split; [constructor | reflexivity].
  - destruct (PyStr.isspace c) eqn:Hc.
    + rewrite IH. split; [now constructor | now inversion 1].
    + split; [discriminate | inversion 1; congruence].
Qed.

Lemma rstrip_empty s : PyStr.rstrip s = EmptyString <-> whitespace_only s.
Proof.
  unfold whitespace_only. induction s as [| c s IH]; simpl.
  - split; [constructor | reflexivity].
  - destruct (PyStr.rstrip s) eqn:Hr.
    + destruct (PyStr.isspace c) eqn:Hc.
      * split; [intros _; constructor; [exact Hc | now apply IH] | reflexivity].
      * split; [discriminate | inversion 1; congruence].
    + split; [discriminate |].
      inversion 1 as [| ? ? _ Hs]. apply IH in Hs. discriminate Hs.
Qed.

Lemma lstrip_head s :
  match PyStr.lstrip s with
  | EmptyString => True
  | String c _ => PyStr.isspace c = false
  end.
Proof.
  induction s as [| c s IH]; simpl; [exact I |].
  destruct (PyStr.isspace c) eqn:Hc; [exact IH | exact Hc].
Qed.

Lemma strip_falsy context :
  PyStr.truthy (PyStr.strip context) = false <-> whitespace_only context.
Proof.
  unfold PyStr.strip. split.
  - intros H. apply lstrip_empty.
    assert (Hr : PyStr.rstrip (PyStr.lstrip context) = EmptyString).
    { destruct (PyStr.rstrip (PyStr.lstrip context)); [reflexivity | discriminate H]. }
    apply rstrip_empty in Hr. pose proof (lstrip_head context) as Hh.
    destruct (PyStr.lstrip context) as [| c r]; [reflexivity |].
    inversion Hr; congruence.
  - intros H. apply lstrip_empty in H. now rewrite H.
Qed.

(** *** The two checks *)

Lemma contains_lower_ci response phrase :
  PyStr.contains phrase (PyStr.lower response) = true <-> contains_ci response phrase.
Proof.
  rewrite contains_app. unfold contains_ci. split.
  - intros (pre & post & H).
    apply lower_app_inv in H as (s1 & s23 & -> & _ & H).
    apply lower_app_inv in H as (s2 & s3 & -> & H2 & _).
    now exists s1, s2, s3.
  - intros (pre & mid & post & -> & <-).
    exists (PyStr.lower pre), (PyStr.lower post). now rewrite !lower_app.
Qed.

Lemma check_pii_items_none items text :
  Forall (fun kp => Re.search (snd kp) text = false) items ->
  Guardrails.check_pii_items items text = (false, EmptyString).
Proof.
  induction 1 as [| [kind pattern] rest Hk _ IH]; simpl; [reflexivity |].
  simpl in Hk. now rewrite Hk.
Qed.

Lemma check_pii_items_first before kind pattern after text :
  Re.search pattern text = true ->
  Forall (fun kp => Re.search (snd kp) text = false) before ->
  Guardrails.check_pii_items (before ++ (kind, pattern) :: after) text = (true, kind).
Proof.
  intros Hm. induction 1 as [| [k p] rest Hk _ IH]; simpl.
  - now rewrite Hm.
  - simpl in Hk. now rewrite Hk.
Qed.

Lemma first_match_exists (items : list (string * string)) text :
  Exists (fun kp => Re.search (snd kp) text = true) items ->
  exists before kind pattern after,
    items = before ++ (kind, pattern) :: after
    /\ Re.search pattern text = true
    /\ Forall (fun kp => Re.search (snd kp) text = false) before.
Proof.
  induction items as [| [k p] rest IH]; intros H; [inversion H |].
  destruct (Re.search p text) eqn:Hp.
  - exists [], k, p, rest. now repeat split.
  - inversion H as [? ? Hh | ? ? Ht]; subst; [simpl in Hh; congruence |].
    destruct (IH Ht) as (before & kind & pattern & after & -> & Hm & Hb).
    exists ((k, p) :: before), kind, pattern, after. repeat split; [exact Hm |].
    now constructor.
Qed.

Lemma unsupported_claim_test context response :
  negb (PyStr.truthy (PyStr.strip context)) && (100 <? PyStr.len response)
  && existsb (fun phrase => PyStr.contains phrase (PyStr.lower response))
       Guardrails.confidence_phrases = true
  <-> unsupported_claim context response.
Proof.
  unfold unsupported_claim.
  rewrite !andb_true_iff, negb_true_iff, strip_falsy, Z.ltb_lt, existsb_exists.
  split.
  - intros [[Hw Hl] [phrase [Hin Hc]]]. repeat split; [exact Hw | exact Hl |].
    exists phrase. split; [now apply list_elem_of_In | now apply contains_lower_ci].
  - intros [Hw [Hl [phrase [Hin Hc]]]]. repeat split; [exact Hw | exact Hl |].
    exists phrase. split; [now apply list_elem_of_In | now apply contains_lower_ci].
Qed.

(** C4. [guardrail_check] runs the PII scan first and the unsupported-claim
    heuristic second. If a pattern of the registry (ssn, credit_card, email,
    phone, in this order) matches the response, the outcome is a block
    naming the first kind that matches; otherwise the outcome is the
    hallucination block exactly when the context is empty or white space,
    the response is longer than 100 characters and it contains one of the
    confidence phrases up to case; otherwise the response passes
    unchanged. *)
Theorem guardrail_check_two_checks (context response : string) :
  map fst Guardrails.PII_PATTERNS = [ "ssn"; "credit_card"; "email"; "phone" ]
  /\ (Exists (fun kp => Re.search (snd kp) response = true) Guardrails.PII_PATTERNS
      \/ no_pii response)
  /\ (Exists (fun kp => Re.search (snd kp) response = true) Guardrails.PII_PATTERNS ->
      exists kind, first_pii_kind response kind
                   /\ Guardrails.guardrail_check context response = (false, pii_block kind))
  /\ (forall kind, first_pii_kind response kind ->
      Guardrails.guardrail_check context response = (false, pii_block kind))
  /\ (no_pii response ->
      (Guardrails.guardrail_check context response = (false, Guardrails.HALLUCINATION_BLOCK)
       <-> unsupported_claim context response))
  /\ (no_pii response -> ~ unsupported_claim context response ->
      Guardrails.guardrail_check context response = (true, response)).
Proof.
  assert (Hfirst : forall kind, first_pii_kind response kind ->
            Guardrails.guardrail_check context response = (false, pii_block kind)).
  { intros kind (before & pattern & after & Hreg & Hm & Hb).
    unfold Guardrails.guardrail_check, Guardrails.check_pii. rewrite Hreg.
    now rewrite (check_pii_items_first before kind pattern after response Hm Hb). }
  assert (Hclean : no_pii response ->
            Guardrails.guardrail_check context response
            = if negb (PyStr.truthy (PyStr.strip context)) && (100 <? PyStr.len response)
                 && existsb (fun phrase => PyStr.contains phrase (PyStr.lower response))
                      Guardrails.confidence_phrases
              then (false, Guardrails.HALLUCINATION_BLOCK) else (true, response)).
  { intros Hno. unfold Guardrails.guardrail_check, Guardrails.check_pii.
    rewrite (check_pii_items_none _ _ Hno).
    destruct (negb (PyStr.truthy (PyStr.strip context)) && (100 <? PyStr.len response));
      reflexivity. }
  split; [reflexivity |]. split; [| split; [| split; [exact Hfirst | split]]].
  - destruct (decide (Exists (fun kp : string * string => Re.search (snd kp) response = true)
                         Guardrails.PII_PATTERNS)) as [He | Hne]; [now left |].
    right. unfold no_pii. apply Forall_forall. intros kp Hin.
    destruct (Re.search (snd kp) response) eqn:Hs; [| reflexivity].
    exfalso. apply Hne. apply Exists_exists. exists kp. now split.
  - intros He. apply first_match_exists in He as (before & kind & pattern & after & Hreg & Hm & Hb).
    assert (Hk : first_pii_kind response kind) by now exists before, pattern, after.
    exists kind. split; [exact Hk | now apply Hfirst].
  - intros Hno. rewrite (Hclean Hno), <- unsupported_claim_test.
    destruct (negb (PyStr.truthy (PyStr.strip context)) && (100 <? PyStr.len response)
              && existsb (fun phrase => PyStr.contains phrase (PyStr.lower response))
                   Guardrails.confidence_phrases);
      split; congruence.
  - intros Hno Hnot. rewrite (Hclean Hno).
    destruct (negb (PyStr.truthy (PyStr.strip context)) && (100 <? PyStr.len response)
              && existsb (fun phrase => PyStr.contains phrase (PyStr.lower response))
                   Guardrails.confidence_phrases) eqn:Ht; [| reflexivity].
    exfalso. apply Hnot. now apply unsupported_claim_test.
Qed.

(** C5. Whatever the context, a response with the card number
    4111-1111-1111-1111 is blocked with the credit-card reason, and the
    response "Revenue was $18 billion" passes. *)
Theorem guardrail_check_card_and_revenue (context : string) :
  Guardrails.guardrail_check context "Card: 4111-1111-1111-1111"
  = (false, "[BLOCKED: credit_card detected in response]")
  /\ Guardrails.guardrail_check context "Revenue was $18 billion"
     = (true, "Revenue was $18 billion").
Proof.
  unfold Guardrails.guardrail_check. split.
  - replace (Guardrails.check_pii "Card: 4111-1111-1111-1111") with (true, "credit_card")
      by (vm_compute; reflexivity).
    reflexivity.
  - replace (Guardrails.check_pii "Revenue was $18 billion") with (false, EmptyString)
      by (vm_compute; reflexivity).
    replace (100 <? PyStr.len "Revenue was $18 billion") with false by reflexivity.
    now rewrite andb_false_r.
Qed.

(** The guardrail cases of the test-suite and of the specification. *)
Example guardrail_blocks_ssn :
  Guardrails.guardrail_check "context" "The SSN is 123-45-6789"
  = (false, "[BLOCKED: ssn detected in response]").
Proof. vm_compute. reflexivity. Qed.

Example check_pii_cases :
  Guardrails.check_pii "My SSN is 123-45-6789" = (true, "ssn")
  /\ Guardrails.check_pii "Contact: john@company.com" = (true, "email")
  /\ Guardrails.check_pii "Call 555-123-4567" = (true, "phone")
  /\ Guardrails.check_pii "Revenue was $18 billion" = (false, EmptyString).
Proof. repeat split; vm_compute; reflexivity. Qed.

Example guardrail_hallucination_cases :
  Guardrails.guardrail_check EmptyString confident_answer
  = (false, Guardrails.HALLUCINATION_BLOCK)
  /\ Guardrails.guardrail_check "Source (public, 10-Q): revenue" confident_answer
     = (true, confident_answer).
Proof. split; vm_compute; reflexivity. Qed.

(** The four patterns of the registry, as the reader of patterns
    understands them. *)
Example registry_patterns_read :
  let digit := [Re.CsDigit] in
  let dash := Re.Repeat [Re.CsChar "-"] 1 (Some 1%nat) in
  let digits n := Re.Repeat digit n (Some n) in
  let opt cs := Re.Repeat cs 0 (Some 1%nat) in
  map (fun kp => Re.compile (snd kp)) Guardrails.PII_PATTERNS
  = [ Some [Re.Boundary; digits 3%nat; dash; digits 2%nat; dash; digits 4%nat; Re.Boundary];
      Some [Re.Boundary; digits 4%nat; opt [Re.CsChar "-"; Re.CsSpace];
            digits 4%nat; opt [Re.CsChar "-"; Re.CsSpace];
            digits 4%nat; opt [Re.CsChar "-"; Re.CsSpace];
            digits 4%nat; Re.Boundary];
      Some [Re.Boundary;
            Re.Repeat [Re.CsRange "A" "Z"; Re.CsRange "a" "z"; Re.CsRange "0" "9";
                       Re.CsChar "."; Re.CsChar "_"; Re.CsChar "%"; Re.CsChar "+";
                       Re.CsChar "-"] 1 None;
            Re.Repeat [Re.CsChar "@"] 1 (Some 1%nat);
            Re.Repeat [Re.CsRange "A" "Z"; Re.CsRange "a" "z"; Re.CsRange "0" "9";
                       Re.CsChar "."; Re.CsChar "-"] 1 None;
            Re.Repeat [Re.CsChar "."] 1 (Some 1%nat);
            Re.Repeat [Re.CsRange "A" "Z"; Re.CsChar "|"; Re.CsRange "a" "z"] 2 None;
            Re.Boundary];
      Some [Re.Boundary; digits 3%nat; opt [Re.CsChar "-"; Re.CsChar "."];
            digits 3%nat; opt [Re.CsChar "-"; Re.CsChar "."];
            digits 4%nat; Re.Boundary] ].
Proof. vm_compute. reflexivity. Qed.

(** ** Sandboxed evaluator *)









Section EvaluatorProperties.

Variable exec : string -> gmap string PyExec.pyval -> gmap string PyExec.pyval
                -> list PyExec.io_event * PyExec.exec_outcome.
Variable str_of : PyExec.pyval -> string.



End EvaluatorProperties.



(** ** Audit log *)

Lemma printable_app a b : printable (a +:+ b) <-> printable a /\ printable b.
Proof.
  unfold printable. induction a as [| c a IH]; simpl.
  - split; [intros H; split; [constructor | exact H] | tauto].
  - rewrite !Forall_cons, IH. tauto.
Qed.

Lemma printable_no_newline s : printable s -> PyStr.contains PyStr.newline s = false.
Proof.
  unfold printable. induction s as [| c s IH]; intros H; [reflexivity |].
  simpl in H. apply Forall_cons in H as [Hc Hs].
  cbn [PyStr.contains]. rewrite (IH Hs), orb_false_r.
  unfold PyStr.newline. cbn [PyStr.startswith].
  destruct (ascii_dec "010" c) as [<- | _]; [discriminate Hc | reflexivity].
Qed.

Lemma printableb_true s : printableb s = true -> printable s.
Proof.
  unfold printableb, printable. rewrite forallb_forall, Forall_forall.
  intros H c Hc. apply H. now apply list_elem_of_In.
Qed.

Lemma escape_char_printable c : printable (Json.escape_char c).
Proof.
  apply printableb_true.
  destruct c as [[] [] [] [] [] [] [] []]; vm_compute; reflexivity.
Qed.

Lemma escape_printable s : printable (Json.escape s).
Proof.
  induction s as [| c s IH]; [constructor |].
  simpl. apply printable_app. split; [apply escape_char_printable | exact IH].
Qed.

Lemma encode_str_printable s : printable (Json.encode_str s).
Proof.
  unfold Json.encode_str. rewrite !printable_app.
  repeat split; [| apply escape_printable |]; apply printableb_true; reflexivity.
Qed.

Lemma string_of_uint_printable d : printable (DecimalString.NilEmpty.string_of_uint d).
Proof.
  induction d; simpl; [constructor | ..]; (constructor; [reflexivity | exact IHd]).
Qed.

Lemma str_of_int_printable n : printable (PyStr.str_of_int n).
Proof.
  unfold PyStr.str_of_int, DecimalString.NilZero.string_of_int,
    DecimalString.NilZero.string_of_uint.
  destruct (Z.to_int n) as [d | d].
  - destruct d; try apply string_of_uint_printable. now apply (printableb_true "0").
  - constructor; [reflexivity |].
    destruct d; try apply string_of_uint_printable. now apply (printableb_true "0").
Qed.

Lemma join_printable sep parts :
  printable sep -> Forall printable parts -> printable (PyStr.join sep parts).
Proof.
  intros Hsep. induction 1 as [| p rest Hp Hrest IH]; [constructor |].
  simpl. destruct rest as [| q rest]; [exact Hp |].
  rewrite !printable_app. auto.
Qed.

(** The text [json.dumps] writes is printable ASCII, whatever the value. *)
Lemma dumps_printable v : printable (Json.dumps v).
Proof.
  induction v as [s | n | b | items IH | fields IH] using json_nested_ind.
  - apply encode_str_printable.
  - apply str_of_int_printable.
  - destruct b; now apply printableb_true.
  - cbn [Json.dumps]. rewrite !printable_app.
    split; [now apply printableb_true | split; [| now apply printableb_true]].
    apply join_printable; [now apply printableb_true |].
    apply Forall_fmap. exact IH.
  - cbn [Json.dumps]. rewrite !printable_app.
    split; [now apply printableb_true | split; [| now apply printableb_true]].
    apply join_printable; [now apply printableb_true |].
    apply Forall_fmap. eapply Forall_impl; [exact IH |].
    intros [k v] Hv. simpl in *. rewrite !printable_app.
    split; [apply encode_str_printable | split; [now apply printableb_true | exact Hv]].
Qed.

Section AuditProperties.

Variable now_isoformat : nat -> string.

(** C10, as the code has it. [log_access] appends to the audit file one
    line, the JSON object of the entry followed by a line feed; the object
    itself holds no line feed. Its keys are timestamp, user_role, query,
    docs_sensitivity, docs_sources, response_length and
    guardrail_triggered: three strings, two lists with one item per
    document accessed in the order of retrieval, the length of the
    response, and the constant false. *)
Theorem log_access_appends_one_json_line
    (user_role query : string) (docs_accessed : list Document) (response : string)
    (w : Runtime.world) :
  let r := Guardrails.log_access now_isoformat user_role query docs_accessed response w in
  let entry := Guardrails.log_entry (now_isoformat (Runtime.ticks w)) user_role query
                 docs_accessed response in
  fst r = inr entry
  /\ Runtime.audit_log (snd r)
     = Runtime.audit_log w +:+ Json.dumps (Json.JObj entry) +:+ PyStr.newline
  /\ printable (Json.dumps (Json.JObj entry))
  /\ PyStr.contains PyStr.newline (Json.dumps (Json.JObj entry)) = false
  /\ map fst entry = log_entry_keys
  /\ map snd entry
     = [ Json.JStr (now_isoformat (Runtime.ticks w));
         Json.JStr user_role;
         Json.JStr query;
         Json.JList (map (fun d => Json.of_meta (dict_get (metadata d) "sensitivity" (MStr "unknown")))
                         docs_accessed);
         Json.JList (map (fun d => Json.of_meta (dict_get (metadata d) "source" (MStr "unknown")))
                         docs_accessed);
         Json.JInt (PyStr.len response);
         Json.JBool false ].
Proof.
  cbv zeta. repeat split.
  - apply dumps_printable.
  - apply printable_no_newline, dumps_printable.
Qed.

End AuditProperties.

(** C10, as the specification states it, fails: the line written for an
    answer drawn from the first two documents of the corpus has the keys
    [user_role], [docs_sensitivity] and [docs_sources], not those of the
    AuditEntry model, and lists the label [public] twice. *)
Lemma log_access_fields_counterexample :
  let r := Guardrails.log_access (fun _ => "2024-01-01T00:00:00") "analyst" "What was Q3 revenue?"
             (take 2 Retriever.documents) "Revenue was $18.12 billion."
             (Runtime.mkWorld EmptyString [] [] O) in
  Runtime.audit_log (snd r)
  = "{" +:+ PyStr.dquote +:+ "timestamp" +:+ PyStr.dquote +:+ ": "
        +:+ PyStr.dquote +:+ "2024-01-01T00:00:00" +:+ PyStr.dquote +:+ ", "
        +:+ PyStr.dquote +:+ "user_role" +:+ PyStr.dquote +:+ ": "
        +:+ PyStr.dquote +:+ "analyst" +:+ PyStr.dquote +:+ ", "
        +:+ PyStr.dquote +:+ "query" +:+ PyStr.dquote +:+ ": "
        +:+ PyStr.dquote +:+ "What was Q3 revenue?" +:+ PyStr.dquote +:+ ", "
        +:+ PyStr.dquote +:+ "docs_sensitivity" +:+ PyStr.dquote +:+ ": ["
        +:+ PyStr.dquote +:+ "public" +:+ PyStr.dquote +:+ ", "
        +:+ PyStr.dquote +:+ "public" +:+ PyStr.dquote +:+ "], "
        +:+ PyStr.dquote +:+ "docs_sources" +:+ PyStr.dquote +:+ ": ["
        +:+ PyStr.dquote +:+ "10-Q" +:+ PyStr.dquote +:+ ", "
        +:+ PyStr.dquote +:+ "Press Release" +:+ PyStr.dquote +:+ "], "
        +:+ PyStr.dquote +:+ "response_length" +:+ PyStr.dquote +:+ ": 27, "
        +:+ PyStr.dquote +:+ "guardrail_triggered" +:+ PyStr.dquote +:+ ": false}"
        +:+ PyStr.newline
  /\ (exists entry, fst r = inr entry
        /\ map fst entry <> AuditEntry_fields
        /\ ("role" ∉ map fst entry)
        /\ ("sensitivities_touched" ∉ map fst entry)
        /\ ("sources_touched" ∉ map fst entry)).
Proof.
  cbv zeta. split; [vm_compute; reflexivity |].
  eexists. split; [reflexivity |].
  repeat split; [discriminate | ..];
    cbn [map fst Guardrails.log_entry]; rewrite !elem_of_cons, elem_of_nil;
    intros H; repeat (destruct H as [H | H]; [discriminate H |]); exact H.
Qed.

(** ** Workflow engine *)




Section WorkflowProperties.

Variable similarity_search : string -> Z -> list Document.
Variable llm_invoke : list Runtime.message -> string.
Variable exec : string -> gmap string PyExec.pyval -> gmap string PyExec.pyval
                -> list PyExec.io_event * PyExec.exec_outcome.
Variable str_of : PyExec.pyval -> string.
Variable now_isoformat : nat -> string.
Variable recursion_limit : nat.

Abbreviation run_from :=
  (Agent.run_from similarity_search llm_invoke exec str_of now_isoformat).
Abbreviation agent_invoke :=
  (Agent.agent_invoke similarity_search llm_invoke exec str_of now_isoformat recursion_limit).
Abbreviation ask :=
  (Agent.ask similarity_search llm_invoke exec str_of now_isoformat recursion_limit).








(** C9. For a role outside analyst, product_manager and executive, [ask]
    returns the invalid-role message as its result and leaves the world as
    it was: no search, no model call, no execution and no audit line. *)
Theorem ask_rejects_unknown_role (question role : string) (w : Runtime.world) :
  role ∉ ROLES ->
  ask question role w = (inr (Agent.invalid_role_message role), w)
  /\ contains_ci (Agent.invalid_role_message role) "invalid role".
Proof.
  intros Hrole. split.
  - unfold Agent.ask. rewrite bool_decide_eq_false_2 by exact Hrole. reflexivity.
  - exists (Agent.CROSS_MARK +:+ " "), "Invalid role",
      (": " +:+ role +:+ ". Use 'analyst', 'product_manager', or 'executive'").
    split; [| reflexivity].
    unfold Agent.invalid_role_message. now rewrite append_assoc.
Qed.

End WorkflowProperties.

(** *** Runs of the workflow on concrete collaborators *)


Lemma hacker_not_a_role : "hacker" ∉ ROLES.
Proof.
  unfold ROLES. rewrite !elem_of_cons, elem_of_nil.
  intros [H | [H | [H | []]]]; discriminate H.
Qed.



Lemma ask_rejects_unknown_role_witness :
  Agent.ask corpus_search directive_model fragment_exec fragment_str fixed_clock 25
    "test" "hacker" world0
  = (inr (Agent.invalid_role_message "hacker"), world0)
  /\ contains_ci (Agent.invalid_role_message "hacker") "invalid role".
Proof.
  apply (ask_rejects_unknown_role corpus_search directive_model fragment_exec fragment_str
           fixed_clock 25 "test" "hacker" world0).
  exact hacker_not_a_role.
Defined.

(** One round trip through the evaluator, then Done: four node
    executions, no audit line for the intermediate directive, one for the
    answer. *)
Example ask_react_run :
  let r := Agent.ask corpus_search react_model fragment_exec fragment_str fixed_clock 25
             "What is 5 + 3?" "analyst" world0 in
  fst r = inr "The sum is 8."
  /\ map effect_kind (Runtime.trace (snd r)) = [ "search"; "model"; "exec"; "model"; "audit" ]
  /\ Runtime.retrieved_docs (snd r) = take 3 Retriever.documents.
Proof. cbv zeta. vm_compute. repeat split; reflexivity. Qed.


(** * Further properties of the code *)

(** ** Retrieval across roles *)

Lemma filter_all {A} (P : A -> Prop) `{!forall x, Decision (P x)} (l : list A) :
  Forall P l -> filter P l = l.
Proof.
  induction 1 as [| x l Hx _ IH]; [reflexivity |].
  now rewrite filter_cons_True, IH.
Qed.

Lemma sublist_filter_impl {A} (P Q : A -> Prop)
    `{!forall x, Decision (P x)} `{!forall x, Decision (Q x)} (l : list A) :
  (forall x, P x -> Q x) -> filter P l `sublist_of` filter Q l.
Proof.
  intros HPQ. induction l as [| x l IH]; [reflexivity |].
  rewrite !filter_cons. destruct (decide (P x)) as [Hp | Hp].
  - rewrite decide_True by auto. now constructor.
  - destruct (decide (Q x)); [now constructor | exact IH].
Qed.

Lemma py_slice_to_length {A} (l : list A) k :
  length (py_slice_to l k)
  = if k <? 0 then (length l - Z.to_nat (- k))%nat else Nat.min (Z.to_nat k) (length l).
Proof.
  unfold py_slice_to. destruct (k <? 0); rewrite length_take; lia.
Qed.

Lemma permitted_mono (a b : gset string) d :
  a ⊆ b -> Retriever.permitted a d -> Retriever.permitted b d.
Proof.
  unfold Retriever.permitted, in_str_set. intros Hab.
  destruct (dict_get (metadata d) "sensitivity" (MStr "public")); [apply Hab | tauto].
Qed.

Lemma corpus_search_in_corpus q n : corpus_search q n ⊆ Retriever.documents.
Proof. apply sublist_subseteq, py_slice_to_sublist. Qed.

Section RetrievalAcrossRoles.

Variable similarity_search : string -> Z -> list Document.

(** On a store that holds the ingested corpus nothing is filtered away
    for the executive: the result is the first [k] candidates. *)
Theorem retrieve_executive_unfiltered (query : string) (k : Z) :
  (forall q n, similarity_search q n ⊆ Retriever.documents) ->
  0 <= k ->
  Retriever.retrieve similarity_search query "executive" k
  = take (Z.to_nat k) (similarity_search query (k * 3)).
Proof.
  intros Hstore Hk. unfold Retriever.retrieve.
  rewrite py_slice_to_nonneg by exact Hk. f_equal.
  apply filter_all. apply Forall_forall. intros d Hd.
  pose proof (proj1 (Forall_forall _ _) corpus_is_labelled d (Hstore _ _ d Hd))
    as (l & Hl & Hin).
  unfold Retriever.permitted, dict_get. rewrite Hl. exact Hin.
Qed.

(** A role whose label set includes that of another role never gets fewer
    documents for the same query and [k], and may see every document the
    other role gets. *)
Theorem retrieve_broader_role (query narrow broad : string) (k : Z) :
  Retriever.get_allowed_sensitivities narrow ⊆ Retriever.get_allowed_sensitivities broad ->
  (length (Retriever.retrieve similarity_search query narrow k)
   <= length (Retriever.retrieve similarity_search query broad k))%nat
  /\ Forall (Retriever.permitted (Retriever.get_allowed_sensitivities broad))
            (Retriever.retrieve similarity_search query narrow k).
Proof.
  intros Hsub. unfold Retriever.retrieve. split.
  - rewrite !py_slice_to_length.
    pose proof (sublist_length _ _
      (sublist_filter_impl
         (Retriever.permitted (Retriever.get_allowed_sensitivities narrow))
         (Retriever.permitted (Retriever.get_allowed_sensitivities broad))
         (similarity_search query (k * 3)) (fun d => permitted_mono _ _ d Hsub))) as Hlen.
    destruct (k <? 0); lia.
  - apply Forall_forall. intros d Hd.
    apply (sublist_subseteq _ _ (py_slice_to_sublist _ k)) in Hd.
    apply list_elem_of_filter in Hd as [Hp _]. now apply (permitted_mono _ _ d Hsub).
Qed.

End RetrievalAcrossRoles.

Lemma analyst_within_product_manager :
  Retriever.get_allowed_sensitivities "analyst"
  ⊆ Retriever.get_allowed_sensitivities "product_manager".
Proof.
  unfold Retriever.get_allowed_sensitivities; simpl.
  intros x; rewrite !elem_of_union, !elem_of_singleton; tauto.
Qed.

Lemma retrieve_executive_unfiltered_witness :
  Retriever.retrieve corpus_search "Project Blackwell status" "executive" 3
  = take 3 (corpus_search "Project Blackwell status" 9).
Proof.
  apply (retrieve_executive_unfiltered corpus_search "Project Blackwell status" 3);
    [exact corpus_search_in_corpus | lia].
Defined.

Lemma retrieve_broader_role_witness :
  (length (Retriever.retrieve corpus_search "roadmap" "analyst" 5)
   <= length (Retriever.retrieve corpus_search "roadmap" "product_manager" 5))%nat
  /\ Forall (Retriever.permitted (Retriever.get_allowed_sensitivities "product_manager"))
            (Retriever.retrieve corpus_search "roadmap" "analyst" 5).
Proof.
  apply (retrieve_broader_role corpus_search "roadmap" "analyst" "product_manager" 5).
  exact analyst_within_product_manager.
Defined.

(** ** The PII scan and the guardrail *)

Lemma check_pii_items_flag (items : list (string * string)) text :
  fst (Guardrails.check_pii_items items text) = true
  <-> Exists (fun kp => Re.search (snd kp) text = true) items.
Proof.
  induction items as [| [k p] rest IH]; simpl.
  - split; [discriminate | inversion 1].
  - destruct (Re.search p text) eqn:Hp; simpl.
    + split; [intros _; now constructor | reflexivity].
    + rewrite IH. split; [now constructor 2 |].
      inversion 1 as [? ? Hh | ? ? Ht]; subst; [simpl in Hh; congruence | exact Ht].
Qed.

Lemma first_pii_kind_check text kind :
  first_pii_kind text kind -> Guardrails.check_pii text = (true, kind).
Proof.
  intros (before & pattern & after & Hreg & Hm & Hb).
  unfold Guardrails.check_pii. rewrite Hreg. now apply check_pii_items_first.
Qed.

Lemma first_pii_kind_registered text kind :
  first_pii_kind text kind -> kind ∈ map fst Guardrails.PII_PATTERNS.
Proof.
  intros (before & pattern & after & -> & _ & _).
  rewrite map_app, elem_of_app. right. simpl. now left.
Qed.

Lemma check_pii_cases_of text :
  (exists kind, first_pii_kind text kind /\ Guardrails.check_pii text = (true, kind))
  \/ (no_pii text /\ Guardrails.check_pii text = (false, EmptyString)).
Proof.
  destruct (decide (Exists (fun kp : string * string => Re.search (snd kp) text = true)
                      Guardrails.PII_PATTERNS)) as [He | Hne].
  - left. apply first_match_exists in He as (before & kind & pattern & after & Hreg & Hm & Hb).
    assert (Hk : first_pii_kind text kind) by now exists before, pattern, after.
    exists kind. split; [exact Hk | now apply first_pii_kind_check].
  - right. assert (Hno : no_pii text).
    { apply Forall_forall. intros kp Hin.
      destruct (Re.search (snd kp) text) eqn:Hs; [| reflexivity].
      exfalso. apply Hne. apply Exists_exists. now exists kp. }
    split; [exact Hno | now apply check_pii_items_none].
Qed.

(** [check_pii] raises its flag exactly when some pattern of the registry
    matches; the kind it then reports is the first kind of the registry
    whose pattern matches, and without a match the kind is the empty
    string. *)
Theorem check_pii_reports_first_match (text : string) :
  (fst (Guardrails.check_pii text) = true
   <-> Exists (fun kp => Re.search (snd kp) text = true) Guardrails.PII_PATTERNS)
  /\ (fst (Guardrails.check_pii text) = true ->
      first_pii_kind text (snd (Guardrails.check_pii text)))
  /\ (fst (Guardrails.check_pii text) = false ->
      snd (Guardrails.check_pii text) = EmptyString).
Proof.
  split; [apply check_pii_items_flag |].
  destruct (check_pii_cases_of text) as [(kind & Hk & ->) | (_ & ->)]; simpl.
  - split; [intros _; exact Hk | discriminate].
  - split; [discriminate | reflexivity].
Qed.

Lemma block_message_passes context message :
  message ∈ BLOCK_MESSAGES ->
  Guardrails.guardrail_check context message = (true, message)
  /\ Guardrails.check_pii message = (false, EmptyString).
Proof.
  unfold BLOCK_MESSAGES. cbn [map app Guardrails.PII_PATTERNS fst].
  rewrite !elem_of_cons, elem_of_nil.
  intros [-> | [-> | [-> | [-> | [-> | []]]]]];
    (split; [| vm_compute; reflexivity]);
    unfold Guardrails.guardrail_check;
    match goal with |- context [Guardrails.check_pii ?m] =>
      replace (Guardrails.check_pii m) with (false, EmptyString) by (vm_compute; reflexivity);
      replace (100 <? PyStr.len m) with false by (vm_compute; reflexivity)
    end; now rewrite andb_false_r.
Qed.

Lemma guardrail_check_cases context response :
  (Guardrails.guardrail_check context response = (true, response)
   /\ Guardrails.check_pii response = (false, EmptyString))
  \/ (exists message, Guardrails.guardrail_check context response = (false, message)
                      /\ message ∈ BLOCK_MESSAGES).
Proof.
  unfold Guardrails.guardrail_check.
  destruct (check_pii_cases_of response) as [(kind & Hk & ->) | (_ & ->)].
  - right. eexists. split; [reflexivity |].
    apply first_pii_kind_registered in Hk.
    unfold BLOCK_MESSAGES. apply elem_of_app. left.
    apply list_elem_of_fmap in Hk as ([k p] & -> & Hin).
    apply list_elem_of_fmap. now exists (k, p).
  - destruct (negb (PyStr.truthy (PyStr.strip context)) && (100 <? PyStr.len response));
      [| now left].
    destruct (existsb _ Guardrails.confidence_phrases); [| now left].
    right. eexists. split; [reflexivity |].
    unfold BLOCK_MESSAGES. apply elem_of_app. right. now left.
Qed.

(** What [guardrail_check] hands back is safe to hand on: a response that
    passes comes back unchanged, a blocked one is replaced by one of five
    fixed messages that do not depend on the response, and in both cases
    the text returned passes the guardrail itself under the same
    context. *)
Theorem guardrail_check_output_is_safe (context response : string) :
  let out := Guardrails.guardrail_check context response in
  (fst out = true -> snd out = response)
  /\ (fst out = false -> snd out ∈ BLOCK_MESSAGES)
  /\ Guardrails.guardrail_check context (snd out) = (true, snd out)
  /\ Guardrails.check_pii (snd out) = (false, EmptyString).
Proof.
  cbv zeta.
  destruct (guardrail_check_cases context response) as [[Hg Hp] | (message & Hg & Hin)];
    rewrite Hg; simpl.
  - repeat split; [discriminate | exact Hg | exact Hp].
  - destruct (block_message_passes context message Hin) as [Hg' Hp'].
    repeat split; [discriminate | intros _; exact Hin | exact Hg' | exact Hp'].
Qed.

(** ** What the nodes do to the world *)


Lemma block_message_no_fence message :
  message ∈ BLOCK_MESSAGES -> PyStr.contains Agent.FENCE message = false.
Proof.
  unfold BLOCK_MESSAGES. cbn [map app Guardrails.PII_PATTERNS fst].
  rewrite !elem_of_cons, elem_of_nil.
  intros [-> | [-> | [-> | [-> | [-> | []]]]]]; vm_compute; reflexivity.
Qed.

Section NodeEffects.

Variable similarity_search : string -> Z -> list Document.
Variable llm_invoke : list Runtime.message -> string.
Variable exec : string -> gmap string PyExec.pyval -> gmap string PyExec.pyval
                -> list PyExec.io_event * PyExec.exec_outcome.
Variable str_of : PyExec.pyval -> string.
Variable now_isoformat : nat -> string.


Lemma source_line_world d w :
  Agent.source_line d w
  = (match metadata d !! "sensitivity", metadata d !! "source" with
     | None, _ => inl (Runtime.KeyError "sensitivity")
     | Some _, None => inl (Runtime.KeyError "source")
     | Some sensitivity, Some source =>
         inr ("Source (" +:+ Runtime.str_of_meta sensitivity +:+ ", "
              +:+ Runtime.str_of_meta source +:+ "): " +:+ page_content d)
     end, w).
Proof.
  unfold Agent.source_line, Runtime.dict_item, Runtime.bind, Runtime.ret, Runtime.raise.
  destruct (metadata d !! "sensitivity"); [| reflexivity].
  destruct (metadata d !! "source"); reflexivity.
Qed.

Lemma mapM_source_line_world docs w r w' :
  Runtime.mapM Agent.source_line docs w = (r, w') -> w' = w.
Proof.
  revert r. induction docs as [| d docs IH]; intros r; cbn [Runtime.mapM].
  - unfold Runtime.ret. now intros [= _ <-].
  - unfold Runtime.bind at 1. rewrite source_line_world.
    destruct (metadata d !! "sensitivity"); [| now intros [= _ <-]].
    destruct (metadata d !! "source"); [| now intros [= _ <-]].
    unfold Runtime.bind. destruct (Runtime.mapM Agent.source_line docs w) as [[e | ls] w1] eqn:Hm.
    + intros [= _ <-]. now apply (IH _ eq_refl).
    + unfold Runtime.ret. intros [= _ <-]. now apply (IH _ eq_refl).
Qed.

Lemma mapM_source_line_keys docs w :
  (Forall has_keys docs ->
   exists lines, Runtime.mapM Agent.source_line docs w = (inr lines, w)
                 /\ length lines = length docs
                 /\ Forall (fun l => PyStr.startswith "Source (" l = true) lines)
  /\ (~ Forall has_keys docs ->
      exists key, (key = "sensitivity" \/ key = "source")
                  /\ Runtime.mapM Agent.source_line docs w = (inl (Runtime.KeyError key), w)).
Proof.
  induction docs as [| d docs [IHok IHko]].
  { split; [intros _; exists []; now repeat split | intros H; destruct H; constructor]. }
  assert (Hstep : Runtime.mapM Agent.source_line (d :: docs) w
                  = match fst (Agent.source_line d w) with
                    | inl e => (inl e, w)
                    | inr l =>
                        match Runtime.mapM Agent.source_line docs w with
                        | (inr ls, w1) => (inr (l :: ls), w1)
                        | (inl e, w1) => (inl e, w1)
                        end
                    end).
  { cbn [Runtime.mapM]. unfold Runtime.bind at 1. rewrite source_line_world. cbn [fst].
    destruct (metadata d !! "sensitivity"); [| reflexivity].
    destruct (metadata d !! "source"); [| reflexivity].
    unfold Runtime.bind, Runtime.ret.
    now destruct (Runtime.mapM Agent.source_line docs w) as [[e | ls] w1]. }
  rewrite Hstep, source_line_world. cbn [fst]. clear Hstep.
  destruct (metadata d !! "sensitivity") as [sv |] eqn:Hs.
  2:{ split.
      - intros H. apply Forall_cons in H as [[[? H] _] _]. congruence.
      - intros _. exists "sensitivity". split; [now left | reflexivity]. }
  destruct (metadata d !! "source") as [so |] eqn:Ho.
  2:{ split.
      - intros H. apply Forall_cons in H as [[_ [? H]] _]. congruence.
      - intros _. exists "source". split; [now right | reflexivity]. }
  split.
  - intros H. apply Forall_cons in H as [_ H].
    destruct (IHok H) as (lines & Hm & Hlen & Hst).
    rewrite Hm. eexists. split; [reflexivity |].
    split; [simpl; now rewrite Hlen |]. constructor; [reflexivity | exact Hst].
  - intros H. destruct IHko as (key & Hkey & Hm).
    { intros Hall. apply H. constructor; [| exact Hall].
      unfold has_keys. rewrite Hs, Ho. split; eauto. }
    exists key. split; [exact Hkey |]. now rewrite Hm.
Qed.



End NodeEffects.

Section RunEffects.

Variable similarity_search : string -> Z -> list Document.
Variable llm_invoke : list Runtime.message -> string.
Variable exec : string -> gmap string PyExec.pyval -> gmap string PyExec.pyval
                -> list PyExec.io_event * PyExec.exec_outcome.
Variable str_of : PyExec.pyval -> string.
Variable now_isoformat : nat -> string.

Abbreviation run := (Agent.run_from similarity_search llm_invoke exec str_of now_isoformat).








End RunEffects.

(** ** The workflow as its caller sees it *)

Lemma retrieve_node_result similarity_search st w m :
  last (Agent.messages st) = Some m ->
  let docs := Retriever.retrieve similarity_search (Runtime.content m) (Agent.user_role st) 3 in
  let w1 := Runtime.mkWorld (Runtime.audit_log w) docs
              (Runtime.trace w ++ [Runtime.SimilaritySearch (Runtime.content m) 9])
              (Runtime.ticks w) in
  Agent.retrieve_node similarity_search st w
  = match Runtime.mapM Agent.source_line docs w1 with
    | (inr lines, _) =>
        (inr (Agent.mkUpdate [] (Some (PyStr.join (PyStr.newline +:+ PyStr.newline) lines)) None),
         w1)
    | (inl e, _) => (inl e, w1)
    end.
Proof.
  intros Hlast docs w1. unfold Agent.retrieve_node, Runtime.last_item. rewrite Hlast.
  unfold Runtime.bind at 1 2 3. unfold Runtime.ret at 1. unfold Runtime.emit.
  unfold Runtime.bind, Runtime.ret. cbn [Runtime.audit_log Runtime.trace Runtime.ticks].
  change (3 * 3) with 9. fold docs. fold w1.
  destruct (Runtime.mapM Agent.source_line docs w1) as [[e | lines] w2] eqn:Hm;
    apply mapM_source_line_world in Hm; subst w2; reflexivity.
Qed.

Lemma join_source_lines_blank lines :
  Forall (fun l => PyStr.startswith "Source (" l = true) lines ->
  whitespace_only (PyStr.join (PyStr.newline +:+ PyStr.newline) lines) <-> lines = [].
Proof.
  intros Hl. split; [| intros ->; constructor].
  destruct Hl as [| l rest Hs _]; [reflexivity |].
  apply startswith_app in Hs as [post ->]. intros H. exfalso.
  assert (Hhead : exists tail, PyStr.join (PyStr.newline +:+ PyStr.newline)
                                 (("Source (" +:+ post) :: rest) = String "S" tail).
  { destruct rest; cbn; eauto. }
  destruct Hhead as [tail Ht]. rewrite Ht in H.
  unfold whitespace_only in H. cbn in H. apply Forall_cons in H as [H _]. discriminate H.
Qed.

Lemma guardrail_check_with_context context response :
  ~ whitespace_only context ->
  Guardrails.guardrail_check context response
  = if fst (Guardrails.check_pii response)
    then (false, pii_block (snd (Guardrails.check_pii response)))
    else (true, response).
Proof.
  intros Hctx. unfold Guardrails.guardrail_check.
  destruct (Guardrails.check_pii response) as [[] kind]; cbn [fst snd]; [reflexivity |].
  destruct (PyStr.truthy (PyStr.strip context)) eqn:Ht; [reflexivity |].
  exfalso. apply Hctx. now apply strip_falsy.
Qed.

Section WorkflowFurther.

Variable similarity_search : string -> Z -> list Document.
Variable llm_invoke : list Runtime.message -> string.
Variable exec : string -> gmap string PyExec.pyval -> gmap string PyExec.pyval
                -> list PyExec.io_event * PyExec.exec_outcome.
Variable str_of : PyExec.pyval -> string.
Variable now_isoformat : nat -> string.
Variable recursion_limit : nat.

Abbreviation invoke :=
  (Agent.agent_invoke similarity_search llm_invoke exec str_of now_isoformat recursion_limit).
Abbreviation ask_ :=
  (Agent.ask similarity_search llm_invoke exec str_of now_isoformat recursion_limit).





(** The context [retrieve_node] builds is blank exactly when nothing was
    retrieved; so with at least one document retrieved the hallucination
    heuristic is off and [guardrail_check] is decided by the PII scan
    alone. *)
Theorem context_blank_iff_nothing_retrieved (st : Agent.FinancialState) (w w' : Runtime.world)
    (m : Runtime.message) (u : Agent.update) :
  last (Agent.messages st) = Some m ->
  Agent.retrieve_node similarity_search st w = (inr u, w') ->
  let docs := Retriever.retrieve similarity_search (Runtime.content m) (Agent.user_role st) 3 in
  exists context,
    Agent.new_context u = Some context
    /\ (whitespace_only context <-> docs = [])
    /\ (docs <> [] ->
        forall response,
          Guardrails.guardrail_check context response
          = if fst (Guardrails.check_pii response)
            then (false, pii_block (snd (Guardrails.check_pii response)))
            else (true, response)).
Proof.
  intros Hlast H docs. rewrite (retrieve_node_result _ _ w _ Hlast) in H. fold docs in H.
  match type of H with context [Runtime.mapM Agent.source_line docs ?w0] =>
    destruct (mapM_source_line_keys docs w0) as [Hok Hko] end.
  destruct (decide (Forall has_keys docs)) as [Hall | Hnot].
  2:{ destruct (Hko Hnot) as (key & _ & Hm). rewrite Hm in H. discriminate H. }
  destruct (Hok Hall) as (lines & Hm & Hlen & Hst). rewrite Hm in H.
  injection H as <- <-. eexists. split; [reflexivity |].
  assert (Hblank : whitespace_only (PyStr.join (PyStr.newline +:+ PyStr.newline) lines)
                   <-> docs = []).
  { rewrite (join_source_lines_blank _ Hst).
    split; intros Hz.
    - subst lines. now destruct docs.
    - rewrite Hz in Hlen. now destruct lines. }
  split; [exact Hblank |].
  intros Hne response. apply guardrail_check_with_context. now rewrite Hblank.
Qed.

End WorkflowFurther.



Lemma context_blank_iff_nothing_retrieved_witness :
  let r := Agent.retrieve_node corpus_search inputs0 world0 in
  let u := match fst r with inr u => u | inl _ => Agent.mkUpdate [] None None end in
  let docs := Retriever.retrieve corpus_search "What is 5 + 3?" "analyst" 3 in
  exists context,
    Agent.new_context u = Some context
    /\ (whitespace_only context <-> docs = [])
    /\ (docs <> [] ->
        forall response,
          Guardrails.guardrail_check context response
          = if fst (Guardrails.check_pii response)
            then (false, pii_block (snd (Guardrails.check_pii response)))
            else (true, response)).
Proof.
  cbv zeta.
  apply (context_blank_iff_nothing_retrieved corpus_search inputs0 world0
           (snd (Agent.retrieve_node corpus_search inputs0 world0))
           (Runtime.HumanMessage "What is 5 + 3?")).
  - reflexivity.
  - vm_compute. reflexivity.
Defined.

(** ** The code block of a directive *)











Section ToolNode.

Variable exec : string -> gmap string PyExec.pyval -> gmap string PyExec.pyval
                -> list PyExec.io_event * PyExec.exec_outcome.
Variable str_of : PyExec.pyval -> string.


End ToolNode.


(** ** The display of the retrieved documents *)

Lemma retrieve_permitted similarity_search query user_role k :
  Forall (Retriever.permitted (Retriever.get_allowed_sensitivities user_role))
         (Retriever.retrieve similarity_search query user_role k).
Proof.
  apply Forall_forall. intros d Hd. unfold Retriever.retrieve in Hd.
  apply (sublist_subseteq _ _ (py_slice_to_sublist _ k)) in Hd.
  now apply list_elem_of_filter in Hd as [Hperm _].
Qed.

Lemma retrieve_same_policy similarity_search query role role' k :
  Retriever.get_allowed_sensitivities role = Retriever.get_allowed_sensitivities role' ->
  Retriever.retrieve similarity_search query role k
  = Retriever.retrieve similarity_search query role' k.
Proof. unfold Retriever.retrieve. now intros ->. Qed.

Lemma unknown_role_policy role :
  role ∉ ROLES ->
  Retriever.get_allowed_sensitivities role = Retriever.get_allowed_sensitivities "analyst".
Proof.
  unfold ROLES. rewrite !not_elem_of_cons. intros (_ & Hp & He & _).
  unfold Retriever.get_allowed_sensitivities.
  destruct (decide (role = "executive")); [congruence |].
  destruct (decide (role = "product_manager")); [congruence | reflexivity].
Qed.

Section DisplayProperties.

Variable similarity_search : string -> Z -> list Document.
Variable str_upper : string -> string.

Lemma display_block_permitted allowed d :
  Retriever.permitted allowed d ->
  exists block, Display.display_block str_upper d = inr block /\ marked block.
Proof.
  unfold Retriever.permitted, Display.display_block, dict_get.
  destruct (metadata d !! "sensitivity") as [[label | n] |]; cbn [in_str_set]; [| tauto |];
    intros _; (eexists; split; [reflexivity |]);
    repeat destruct (decide _); eexists; reflexivity.
Qed.

Lemma display_blocks_permitted allowed docs :
  Forall (Retriever.permitted allowed) docs ->
  exists blocks,
    Display.display_blocks str_upper docs = inr blocks
    /\ Forall2 (fun d block => Display.display_block str_upper d = inr block) docs blocks
    /\ Forall marked blocks.
Proof.
  induction 1 as [| d docs Hd _ (blocks & Hb & Hrel & Hm)].
  - exists []. repeat split; constructor.
  - destruct (display_block_permitted _ _ Hd) as (block & Hblock & Hmark).
    exists (block :: blocks). cbn [Display.display_blocks]. rewrite Hblock, Hb.
    repeat split; now constructor.
Qed.

Lemma join_marked sep block blocks :
  marked block -> marked (PyStr.join sep (block :: blocks)).
Proof.
  intros [tail ->]. destruct blocks as [| b blocks]; [now exists tail |].
  cbn [PyStr.join]. eexists. reflexivity.
Qed.

Lemma get_docs_display_returns query user_role :
  let docs := Retriever.retrieve similarity_search query user_role 3 in
  exists text blocks,
    Display.get_docs_display similarity_search str_upper query user_role = inr text
    /\ Forall2 (fun d block => Display.display_block str_upper d = inr block) docs blocks
    /\ (docs = [] -> text = Display.NO_DOCUMENTS)
    /\ (docs <> [] -> text = PyStr.join (PyStr.newline +:+ PyStr.newline) blocks
                      /\ marked text).
Proof.
  intros docs. unfold Display.get_docs_display. fold docs.
  destruct (display_blocks_permitted _ docs (retrieve_permitted _ _ _ _))
    as (blocks & Hb & Hrel & Hm).
  destruct docs as [| d docs'] eqn:Hdocs.
  - exists Display.NO_DOCUMENTS, blocks. repeat split; [exact Hrel | congruence | congruence].
  - rewrite Hb. eexists. exists blocks.
    split; [reflexivity |]. split; [exact Hrel |]. split; [discriminate |].
    intros _. split; [reflexivity |].
    inversion Hm as [| block blocks' Hmark _ Heq]; subst.
    + inversion Hrel.
    + now apply join_marked.
Qed.

(** [get_docs_display] never fails and shows what [retrieve] returned for
    the role: a value of [sensitivity] that is no string would make
    [upper()] fail, but such a document is in no role's set and does not
    reach the loop. The text is the fixed message exactly when nothing was
    retrieved; otherwise it joins one block for each of at most three
    documents, every one permitted to the role. *)
Theorem get_docs_display_shows_permitted (query user_role : string) :
  let docs := Retriever.retrieve similarity_search query user_role 3 in
  exists text blocks,
    Display.get_docs_display similarity_search str_upper query user_role = inr text
    /\ (text = Display.NO_DOCUMENTS <-> docs = [])
    /\ (docs <> [] -> text = PyStr.join (PyStr.newline +:+ PyStr.newline) blocks)
    /\ Forall2 (fun d block => Display.display_block str_upper d = inr block) docs blocks
    /\ (length docs <= 3)%nat
    /\ Forall (Retriever.permitted (Retriever.get_allowed_sensitivities user_role)) docs.
Proof.
  intros docs.
  destruct (get_docs_display_returns query user_role) as (text & blocks & Hd & Hrel & He & Hn).
  fold docs in Hrel, He, Hn.
  exists text, blocks. split; [exact Hd |]. split; [| split; [| split; [exact Hrel | split]]].
  - split; [| exact He]. intros Ht.
    destruct docs as [| d docs'] eqn:Hdocs; [reflexivity |].
    destruct Hn as [_ [tail Hmark]]; [discriminate |].
    rewrite Ht in Hmark. discriminate Hmark.
  - intros Hne. now apply Hn.
  - unfold docs, Retriever.retrieve. rewrite py_slice_to_length.
    change (3 <? 0) with false. cbn match. change (Z.to_nat 3) with 3%nat. lia.
  - apply retrieve_permitted.
Qed.

End DisplayProperties.

(** ** A document without label *)

(** A document without the key [sensitivity] is read in four ways:
    [retrieve] takes it for public and lets every role see it, the display
    marks it red as [unknown], the audit entry records [unknown], and
    [retrieve_node] raises [KeyError]. *)
Theorem missing_label_is_read_four_ways (d : Document) :
  metadata d !! "sensitivity" = None ->
  (forall role, Retriever.permitted (Retriever.get_allowed_sensitivities role) d)
  /\ (forall str_upper,
        Display.display_block str_upper d
        = inr (Display.RED +:+ " **[" +:+ str_upper "unknown" +:+ "]** ("
               +:+ Runtime.str_of_meta (dict_get (metadata d) "source" (MStr "unknown")) +:+ ")"
               +:+ PyStr.newline +:+ PyStr.take_chars 150 (page_content d) +:+ "..."))
  /\ (forall timestamp role query response,
        Guardrails.log_entry timestamp role query [d] response !! 3%nat
        = Some ("docs_sensitivity", Json.JList [Json.JStr "unknown"]))
  /\ (forall w, Agent.source_line d w = (inl (Runtime.KeyError "sensitivity"), w)).
Proof.
  intros Hnone. repeat split.
  - intros role. unfold Retriever.permitted, dict_get. rewrite Hnone. cbn [in_str_set].
    unfold Retriever.get_allowed_sensitivities. repeat destruct (decide _); set_solver.
  - intros str_upper. unfold Display.display_block, dict_get. rewrite Hnone. reflexivity.
  - intros timestamp role query response. unfold Guardrails.log_entry, dict_get.
    cbn [map lookup list_lookup]. rewrite Hnone. reflexivity.
  - intros w. unfold Agent.source_line, Runtime.bind, Runtime.dict_item. now rewrite Hnone.
Qed.

Lemma missing_label_is_read_four_ways_witness :
  (forall role, Retriever.permitted (Retriever.get_allowed_sensitivities role) unlabelled_doc)
  /\ (forall str_upper,
        Display.display_block str_upper unlabelled_doc
        = inr (Display.RED +:+ " **[" +:+ str_upper "unknown" +:+ "]** ("
               +:+ Runtime.str_of_meta
                     (dict_get (metadata unlabelled_doc) "source" (MStr "unknown")) +:+ ")"
               +:+ PyStr.newline +:+ PyStr.take_chars 150 (page_content unlabelled_doc)
               +:+ "..."))
  /\ (forall timestamp role query response,
        Guardrails.log_entry timestamp role query [unlabelled_doc] response !! 3%nat
        = Some ("docs_sensitivity", Json.JList [Json.JStr "unknown"]))
  /\ (forall w, Agent.source_line unlabelled_doc w = (inl (Runtime.KeyError "sensitivity"), w)).
Proof.
  apply (missing_label_is_read_four_ways unlabelled_doc). reflexivity.
Defined.

(** ** The chat function of the interface *)

Section ChatProperties.

Variable similarity_search : string -> Z -> list Document.
Variable llm_invoke : list Runtime.message -> string.
Variable exec : string -> gmap string PyExec.pyval -> gmap string PyExec.pyval
                -> list PyExec.io_event * PyExec.exec_outcome.
Variable str_of : PyExec.pyval -> string.
Variable now_isoformat : nat -> string.
Variable recursion_limit : nat.
Variable str_upper : string -> string.

Abbreviation chat :=
  (Ui.chat_with_role similarity_search llm_invoke exec str_of now_isoformat recursion_limit
     str_upper).
Abbreviation ask' :=
  (Agent.ask similarity_search llm_invoke exec str_of now_isoformat recursion_limit).

Lemma ask_unknown_role question role w :
  role ∉ ROLES -> ask' question role w = (inr (Agent.invalid_role_message role), w).
Proof.
  intros Hrole. unfold Agent.ask. now rewrite bool_decide_eq_false_2 by exact Hrole.
Qed.



(** A role outside the three is told so, and is still shown documents:
    [ask] returns its message without a search, and [get_docs_display]
    then treats the role as an analyst and shows the public documents that
    match the question. *)
Theorem chat_with_role_unknown_role (message : string) (history : list (string * string))
    (role : string) (w : Runtime.world) :
  role ∉ ROLES ->
  ~ whitespace_only message ->
  exists docs_display,
    Display.get_docs_display similarity_search str_upper message "analyst" = inr docs_display
    /\ chat message history role w
       = (inr (history ++ [(message, Agent.invalid_role_message role)], docs_display),
          Runtime.mkWorld (Runtime.audit_log w) (Runtime.retrieved_docs w)
            (Runtime.trace w ++ [Runtime.SimilaritySearch message 9]) (Runtime.ticks w)).
Proof.
  intros Hrole Hmsg.
  destruct (get_docs_display_returns similarity_search str_upper message "analyst")
    as (text & blocks & Hd & _).
  exists text. split; [exact Hd |].
  unfold Ui.chat_with_role.
  assert (Ht : PyStr.truthy (PyStr.strip message) = true).
  { destruct (PyStr.truthy (PyStr.strip message)) eqn:Ht; [reflexivity |].
    now apply strip_falsy in Ht. }
  rewrite Ht. cbn [negb]. rewrite (ask_unknown_role _ _ _ Hrole).
  unfold Display.get_docs_display in *.
  rewrite (retrieve_same_policy _ _ role "analyst" _ (unknown_role_policy _ Hrole)).
  now rewrite Hd.
Qed.

End ChatProperties.

Lemma chat_with_role_unknown_role_witness :
  exists docs_display,
    Display.get_docs_display corpus_search ascii_upper "revenue" "analyst" = inr docs_display
    /\ Ui.chat_with_role corpus_search plain_model fragment_exec fragment_str fixed_clock 25
         ascii_upper "revenue" [] "hacker" world0
       = (inr ([] ++ [("revenue", Agent.invalid_role_message "hacker")], docs_display),
          Runtime.mkWorld EmptyString [] ([] ++ [Runtime.SimilaritySearch "revenue" 9]) O).
Proof.
  apply (chat_with_role_unknown_role corpus_search plain_model fragment_exec fragment_str
           fixed_clock 25 ascii_upper "revenue" [] "hacker" world0).
  - exact hacker_not_a_role.
  - unfold whitespace_only. intros H. inversion H as [| c l Hc _]. discriminate Hc.
Defined.

(** The default branches disagree: for a role outside the three the
    interface describes the executive's full access, while the retriever
    grants the analyst's public documents only and the prompt takes the
    analyst's tone. *)
Theorem unknown_role_defaults_disagree (role : string) :
  role ∉ ROLES ->
  Ui.update_role_info role = Ui.update_role_info "executive"
  /\ Retriever.get_allowed_sensitivities role = Retriever.get_allowed_sensitivities "analyst"
  /\ Retriever.get_allowed_sensitivities role <> Retriever.get_allowed_sensitivities "executive"
  /\ Agent.tone_of role = Agent.tone_of "analyst".
Proof.
  intros Hrole. pose proof (unknown_role_policy _ Hrole) as Hpolicy.
  unfold ROLES in Hrole. rewrite !not_elem_of_cons in Hrole.
  destruct Hrole as (Ha & Hp & He & _).
  repeat split.
  - unfold Ui.update_role_info.
    destruct (decide (role = "analyst")); [congruence |].
    destruct (decide (role = "product_manager")); [congruence | reflexivity].
  - exact Hpolicy.
  - rewrite Hpolicy. intros Heq.
    assert (Hin : "insider" ∈ Retriever.get_allowed_sensitivities "executive")
      by (vm_compute; set_solver).
    rewrite <- Heq in Hin. vm_compute in Hin. set_solver.
  - unfold Agent.tone_of.
    destruct (decide (role = "executive")); [congruence |].
    destruct (decide (role = "product_manager")); [congruence | reflexivity].
Qed.

Lemma unknown_role_defaults_disagree_witness :
  Ui.update_role_info "hacker" = Ui.update_role_info "executive"
  /\ Retriever.get_allowed_sensitivities "hacker"
     = Retriever.get_allowed_sensitivities "analyst"
  /\ Retriever.get_allowed_sensitivities "hacker"
     <> Retriever.get_allowed_sensitivities "executive"
  /\ Agent.tone_of "hacker" = Agent.tone_of "analyst".
Proof.
  apply (unknown_role_defaults_disagree "hacker"). exact hacker_not_a_role.
Defined.
